(** * Agentic Project Builder: orchestration core

    A shallow embedding of the stage functions of the project builder
    (architect fallback, coder, reviewer, fixer, routing) and of the
    file tools they call, together with the properties the specification
    states about them.

    Conventions of the embedding.
    - Python [str] is [string]; the model covers ASCII text, so [len] is
      [String.length] and [upper]/[lower]/[strip] act on ASCII only.
    - Python [int] is [Z].
    - A state dictionary is a record of options: a field is [None] when
      [state.get(key)] yields [None] (key absent or bound to [None]).
    - The language model, the prompt templates and the regular-expression /
      JSON decoding helpers are external collaborators: they are the fields
      of the class [Collaborators], over which every statement is universally
      quantified.  Each call to the language model is numbered, so that two
      calls with the same prompt may answer differently. *)

From Stdlib Require Import ZArith String Ascii List Bool Lia.
From stdpp Require Import base option list gmap strings pretty sorting.

Local Open Scope string_scope.
Local Open Scope Z_scope.

(** ** Python string primitives *)

Module Py.

Definition LF : ascii := "010"%char.
Definition nl : string := String LF "".

(** [len(s)] *)
Definition len (s : string) : Z := Z.of_nat (String.length s).

(** [s.startswith(p)] *)
Definition startswith (s p : string) : bool := String.prefix p s.

(** [sub in s] *)
Fixpoint contains (sub s : string) : bool :=
  if String.prefix sub s then true
  else match s with
       | EmptyString => false
       | String _ s' => contains sub s'
       end.

(** [c.isspace()] on ASCII: TAB..CR, FS..US and the blank. *)
Definition is_space (c : ascii) : bool :=
  let n := nat_of_ascii c in
  ((9 <=? n)%nat && (n <=? 13)%nat) || ((28 <=? n)%nat && (n <=? 32)%nat).

Definition is_empty (s : string) : bool :=
  match s with EmptyString => true | _ => false end.

Fixpoint lstrip (s : string) : string :=
  match s with
  | EmptyString => EmptyString
  | String c s' => if is_space c then lstrip s' else s
  end.

Fixpoint rstrip (s : string) : string :=
  match s with
  | EmptyString => EmptyString
  | String c s' =>
      let r := rstrip s' in
      if is_space c && is_empty r then EmptyString else String c r
  end.

(** [s.strip()] *)
Definition strip (s : string) : string := rstrip (lstrip s).

Definition upper_char (c : ascii) : ascii :=
  let n := nat_of_ascii c in
  if (97 <=? n)%nat && (n <=? 122)%nat then ascii_of_nat (n - 32) else c.

Definition lower_char (c : ascii) : ascii :=
  let n := nat_of_ascii c in
  if (65 <=? n)%nat && (n <=? 90)%nat then ascii_of_nat (n + 32) else c.

Fixpoint map_chars (f : ascii -> ascii) (s : string) : string :=
  match s with
  | EmptyString => EmptyString
  | String c s' => String (f c) (map_chars f s')
  end.

(** [s.upper()], [s.lower()] *)
Definition upper : string -> string := map_chars upper_char.
Definition lower : string -> string := map_chars lower_char.

(** [s.split(sep)] for a one-character separator; never the empty list. *)
Fixpoint split (sep : ascii) (s : string) : list string :=
  match s with
  | EmptyString => [EmptyString]
  | String c s' =>
      if Ascii.eqb c sep then EmptyString :: split sep s'
      else match split sep s' with
           | h :: t => String c h :: t
           | [] => [String c EmptyString]
           end
  end.

(** [sep.join(l)] *)
Definition join (sep : string) (l : list string) : string := String.concat sep l.

(** [s[:n]] for [n >= 0] *)
Fixpoint prefix_of (n : nat) (s : string) : string :=
  match n, s with
  | S n', String c s' => String c (prefix_of n' s')
  | _, _ => EmptyString
  end.

(** [s[n:]] for [n >= 0] *)
Fixpoint drop_str (n : nat) (s : string) : string :=
  match n, s with
  | S n', String _ s' => drop_str n' s'
  | _, _ => s
  end.

(** [l[-1]] of a list that [split] produced *)
Definition last_str (l : list string) : string := List.last l EmptyString.

(** [l[i]] with Python's negative indices; [None] stands for IndexError. *)
Definition index {A} (l : list A) (i : Z) : option A :=
  let n := Z.of_nat (length l) in
  if (0 <=? i) && (i <? n) then l !! Z.to_nat i
  else if (i <? 0) && (- n <=? i) then l !! Z.to_nat (n + i)
  else None.

(** [str(n)] of a length *)
Definition str_nat (n : nat) : string := pretty n.

(** [max(l, key=len)]: the first element of maximal length. *)
Fixpoint max_by_len (best : string) (l : list string) : string :=
  match l with
  | [] => best
  | x :: l' =>
      if (String.length best <? String.length x)%nat
      then max_by_len x l' else max_by_len best l'
  end.

(** [filepath.split(".")[-1].lower() if "." in filepath else ""] *)
Definition file_ext (filepath : string) : string :=
  if contains "." filepath then lower (last_str (split "."%char filepath))
  else EmptyString.

(** A [dict] with string keys, in insertion order: assigning to a key that
    is present keeps its place. *)
Fixpoint dict_set {V} (k : string) (v : V) (d : list (string * V)) : list (string * V) :=
  match d with
  | [] => [(k, v)]
  | (k', v') :: d' =>
      if String.eqb k' k then (k, v) :: d' else (k', v') :: dict_set k v d'
  end.

Fixpoint dict_get {V} (k : string) (d : list (string * V)) : option V :=
  match d with
  | [] => None
  | (k', v') :: d' => if String.eqb k' k then Some v' else dict_get k d'
  end.

Definition dict_values {V} (d : list (string * V)) : list V := snd <$> d.

Definition CR : ascii := "013"%char.

(** The NUL character, as a string. *)
Definition nul : string := String "000"%char "".

(** What a text-mode [read()] returns for the stored text (universal
    newlines): CR LF and a lone CR come back as LF. *)
Fixpoint universal_newlines (s : string) : string :=
  match s with
  | EmptyString => EmptyString
  | String c s' =>
      if Ascii.eqb c CR then
        match s' with
        | String c' s'' =>
            if Ascii.eqb c' LF then String LF (universal_newlines s'')
            else String LF (universal_newlines s')
        | EmptyString => String LF EmptyString
        end
      else String c (universal_newlines s')
  end.

(** A stable sort by an integer key, as [list.sort(key=...)] is. *)
Section StableSort.
Context {A : Type} (key : A -> Z).

Fixpoint insert_by (x : A) (l : list A) : list A :=
  match l with
  | [] => [x]
  | y :: l' => if key x <? key y then x :: l else y :: insert_by x l'
  end.

Definition sort_by (l : list A) : list A := foldl (fun acc x => insert_by x acc) [] l.
End StableSort.

End Py.

(** ** State models ([states.py]) *)

Inductive AgentPhase :=
| INITIALIZING | PLANNING | ARCHITECTING | CODING | REVIEWING
| FIXING | TESTING | FINALIZING | COMPLETE | FAILED.

Inductive ReviewSeverity := CRITICAL | HIGH | MEDIUM | LOW | PASS.

Record File := {
  path : string;
  purpose : string;
  file_dependencies : list string
}.

Record Plan := {
  name : string;
  description : string;
  techstack : string;
  features : list string;
  files : list File;
  architecture_notes : string
}.

Record ImplementationTask := {
  filepath : string;
  task_description : string;
  dependencies : list string;
  expected_exports : list string;
  priority : Z
}.

Record TaskPlan := {
  tp_plan : option Plan;
  implementation_steps : list ImplementationTask;
  total_estimated_tokens : Z
}.

Record CoderState := {
  cs_task_plan : TaskPlan;
  current_step_idx : Z;
  completed_files : list string;
  failed_files : list string;
  current_file_content : option string
}.

Record CodeIssue := {
  line_number : option Z;
  issue_type : string;
  issue_description : string;
  suggestion : string;
  severity : ReviewSeverity
}.

Record CodeReview := {
  review_filepath : string;
  issues : list CodeIssue;
  passed : bool;
  overall_quality : Z;
  summary : string
}.

Record ReviewState := {
  reviews : list CodeReview;
  iteration : Z;
  max_iterations : Z;
  all_passed : bool
}.

(** The pydantic constructors, with the field defaults of [states.py]:
    an argument that the caller leaves out is [None] here. *)

Definition new_TaskPlan (plan : option Plan) (steps : list ImplementationTask) : TaskPlan :=
  {| tp_plan := plan; implementation_steps := steps; total_estimated_tokens := 0 |}.

Definition new_CoderState (tp : TaskPlan) (idx : option Z)
    (completed failed : option (list string)) : CoderState :=
  {| cs_task_plan := tp;
     current_step_idx := default 0 idx;
     completed_files := default [] completed;
     failed_files := default [] failed;
     current_file_content := None |}.

Definition new_CodeIssue (ty desc sugg : string) (sev : ReviewSeverity) : CodeIssue :=
  {| line_number := None; issue_type := ty; issue_description := desc;
     suggestion := sugg; severity := sev |}.

Definition new_ReviewState (rs : option (list CodeReview)) (it maxit : option Z)
    (ap : option bool) : ReviewState :=
  {| reviews := default [] rs;
     iteration := default 0 it;
     max_iterations := default 3 maxit;
     all_passed := default false ap |}.

(** The state dictionary threaded through the graph.  Each stage returns a
    fresh dictionary; the keys it does not return are absent afterwards. *)
Record State := {
  user_prompt : option string;
  plan : option Plan;
  task_plan : option TaskPlan;
  coder_state : option CoderState;
  review_state : option ReviewState;
  current_phase : option AgentPhase;
  status : option string;
  errors : option (list string)
}.

(** ** The world outside the stages *)

(** What a call to a collaborator yields: its value, or an exception whose
    text is [str(e)]. *)
Inductive call_result (A : Type) :=
| Reply (a : A)
| Raise (err : string).
Arguments Reply {A} a.
Arguments Raise {A} err.

(** The project tree, keyed by resolved path (the list of its components
    below the file-system root), and the number of requests the stages have
    sent so far: a plain or structured generation request counts once, and so
    does a whole run of the tool-using agent, however often the agent itself
    consults the model. *)
Record World := {
  disk : gmap (list string) string;
  llm_calls : nat
}.

Definition set_disk (w : World) (d : gmap (list string) string) : World :=
  {| disk := d; llm_calls := llm_calls w |}.

Definition tick (w : World) : World :=
  {| disk := disk w; llm_calls := S (llm_calls w) |}.

Class Collaborators := {
  (** [tools.PROJECT_ROOT], resolved: the components of an absolute path. *)
  PROJECT_ROOT : list string;
  (** The text of the OSError that [mkdir]/[open(p, "w")]/[write] raise at a
      resolved path, if they do. *)
  os_write_error : gmap (list string) string -> list string -> option string;
  (** The text of the exception that [exists]/[open(p, "r")]/[read] raise. *)
  os_read_error : gmap (list string) string -> list string -> option string;
  (** [get_project_context_summary(max_files, max_chars_per_file)]: read-only,
      in the directory order of the host. *)
  get_project_context_summary : gmap (list string) string -> Z -> Z -> call_result string;
  (** [llm.invoke(prompt).content], by request number. *)
  llm_invoke : nat -> string -> call_result string;
  (** [llm.with_structured_output(CodeReview).invoke(prompt)], which may also
      return [None]. *)
  llm_structured_review : nat -> string -> call_result (option CodeReview);
  (** [create_react_agent(llm, CODER_TOOLS).invoke(messages)]: the
      [write_file] calls the agent makes, in order, and how it ends.  The other
      tools in [CODER_TOOLS] only read. *)
  react_agent_invoke : nat -> string -> string -> list (string * string) * call_result unit;
  (** Prompt templates of [prompts.py] and the f-string prompts of the stages. *)
  coder_system_prompt : string;
  coder_task_prompt : string -> string -> string -> string -> string;
  coder_fallback_prompt : string -> string -> string;
  reviewer_prompt : string -> string -> string -> string;
  reviewer_simple_prompt : string -> string -> string -> string;
  fixer_prompt : string -> string -> string -> list CodeIssue -> string;
  (** Regular-expression and JSON decoding: the [re.search] + [json.loads]
      part of [extract_and_execute_tool_call], giving [path] and [content]. *)
  decode_write_file_call : string -> option (string * string);
  (** [parse_review_from_error(error_str, filepath)] *)
  parse_review_from_error : string -> string -> option CodeReview;
  (** [clean_review_response(text)] *)
  clean_review_response : string -> string
}.

(** ** File tools ([tools.py]) *)

Module Tools.
Section Tools.
Context `{Collaborators}.

(** *** The part of [pathlib] the tools use (POSIX flavour)

    A path string is parsed into its components: empty components and
    [.] are dropped, [..] is kept.  The tree has no symbolic links, so
    [resolve()] is the lexical normalisation below. *)

Definition is_absolute (p : string) : bool := Py.startswith p "/".

Definition keep_component (c : string) : bool :=
  negb (String.eqb c "" || String.eqb c ".").

Definition parts (p : string) : list string :=
  List.filter keep_component (Py.split "/"%char p).

(** [pathlib.Path(p).name]: the final component, [""] when there is none. *)
Definition path_name (p : string) : string := List.last (parts p) "".

(** [(base / p).resolve()] for a resolved [base]: [..] steps to the parent,
    and the parent of the root is the root. *)
Fixpoint resolve_from (base : list string) (cs : list string) : list string :=
  match cs with
  | [] => base
  | c :: cs' =>
      if String.eqb c ".." then resolve_from (removelast base) cs'
      else resolve_from (base ++ [c]) cs'
  end.

(** [p.relative_to(root)] succeeds *)
Definition within (root p : list string) : bool := bool_decide (root `prefix_of` p).

(** [safe_path_for_project(path)]: the resolved path, or the text of the
    ValueError it raises.  [resolve()] itself raises one on a path that holds
    a NUL character. *)
Definition safe_path_for_project (path : string) : list string + string :=
  let path := if is_absolute path then path_name path else path in
  if Py.contains Py.nul path then inr "embedded null byte"
  else
    let p := resolve_from PROJECT_ROOT (parts path) in
    if within PROJECT_ROOT p then inl p
    else inr ("Security Error: Attempt to access path outside project root: " +:+ path).

(** [write_file.invoke({"path": path, "content": content})].  A write the
    host refuses leaves the tree as it was. *)
Definition write_file (path content : string) (d : gmap (list string) string)
    : gmap (list string) string * string :=
  match safe_path_for_project path with
  | inl p =>
      match os_write_error d p with
      | None =>
          (<[p := content]> d,
           "SUCCESS: Wrote " +:+ Py.str_nat (String.length content)
             +:+ " characters to " +:+ path)
      | Some e => (d, "ERROR: Failed to write to " +:+ path +:+ ": " +:+ e)
      end
  | inr e => (d, "ERROR: Failed to write to " +:+ path +:+ ": " +:+ e)
  end.

(** [read_file.invoke({"path": path})].  The file is read in text mode. *)
Definition read_file (path : string) (d : gmap (list string) string) : string :=
  match safe_path_for_project path with
  | inl p =>
      match os_read_error d p with
      | None => Py.universal_newlines (default "" (d !! p))
      | Some e => "ERROR: Failed to read " +:+ path +:+ ": " +:+ e
      end
  | inr e => "ERROR: Failed to read " +:+ path +:+ ": " +:+ e
  end.

(** The files strictly below a directory, as paths relative to the root. *)
Definition files_below (p : list string) (d : gmap (list string) string) : list string :=
  (fun k => Py.join "/" (drop (length PROJECT_ROOT) k))
    <$> List.filter (fun k => within p k && negb (bool_decide (k = p)))
          (fst <$> map_to_list d).

(** [list_files.invoke({"directory": directory})].  A directory exists when
    it is the project root or some file lies below it. *)
Definition list_files (directory : string) (d : gmap (list string) string) : string :=
  match safe_path_for_project directory with
  | inl p =>
      match d !! p with
      | Some _ => "ERROR: " +:+ directory +:+ " is not a directory"
      | None =>
          let fs := files_below p d in
          if bool_decide (fs = []) then
            if bool_decide (p = PROJECT_ROOT) then "No files found in directory."
            else "Directory does not exist: " +:+ directory
          else Py.join Py.nl (merge_sort String.le fs)
      end
  | inr e => "ERROR: Failed to list files: " +:+ e
  end.

End Tools.
End Tools.

(** ** Architect: the fallback task plan ([architect.py]) *)

Module Architect.

Definition priority_map : gmap string Z :=
  list_to_map [(".json", 0); (".html", 1); (".css", 2); (".js", 3); (".py", 1); (".md", 4)].

(** ['.' + path.split('.')[-1] if '.' in path else ''] *)
Definition dotted_ext (p : string) : string :=
  if Py.contains "." p then "." +:+ Py.last_str (Py.split "."%char p) else "".

Definition fallback_description (pl : Plan) (file : File) : string :=
  "Create the file " +:+ path file +:+ " for the " +:+ name pl +:+ " project."
  +:+ Py.nl +:+ Py.nl +:+ "Purpose: " +:+ purpose file
  +:+ Py.nl +:+ Py.nl +:+ "Tech Stack: " +:+ techstack pl
  +:+ Py.nl +:+ Py.nl +:+ "Project Features to implement:"
  +:+ Py.nl +:+ Py.join Py.nl ((fun f => "- " +:+ f) <$> features pl)
  +:+ Py.nl +:+ Py.nl
  +:+ "Create a complete, working implementation. Include all necessary code."
  +:+ Py.nl.

Definition fallback_step (pl : Plan) (i : nat) (file : File) : ImplementationTask :=
  {| filepath := path file;
     task_description := fallback_description pl file;
     dependencies := path <$> take i (files pl);
     expected_exports := [];
     priority := default (Z.of_nat i) (priority_map !! dotted_ext (path file)) |}.

(** [create_fallback_task_plan(plan)] *)
Definition create_fallback_task_plan (pl : Plan) : TaskPlan :=
  new_TaskPlan None (Py.sort_by priority (imap (fallback_step pl) (files pl))).

(** What the scenarios observe of a step: its filepath and priority. *)
Definition step_summary (t : ImplementationTask) : string * Z := (filepath t, priority t).

End Architect.

(** ** Extraction of a code body from a reply

    [re.findall] for the patterns [```LANG\n(.*?)```] under [re.DOTALL], where
    [LANG] ranges over a list of alternatives tried in order. *)

Module Fence.

Definition fence : string := "```".

(** The text before the first fence in [s], if there is one. *)
Fixpoint before_fence (s : string) : option string :=
  if String.prefix fence s then Some EmptyString
  else match s with
       | EmptyString => None
       | String c s' => String c <$> before_fence s'
       end.

(** The opening [```LANG\n] at the head of [s], for the first alternative
    that fits: its length. *)
Fixpoint opening (langs : list string) (s : string) : option nat :=
  match langs with
  | [] => None
  | l :: langs' =>
      let o := fence +:+ l +:+ Py.nl in
      if String.prefix o s then Some (String.length o) else opening langs' s
  end.

(** Matches are taken left to right and do not overlap: after a match the
    scan resumes behind its closing fence. *)
Fixpoint findall_from (langs : list string) (s : string) (skip : nat) : list string :=
  match s with
  | EmptyString => []
  | String _ s' =>
      match skip with
      | S k => findall_from langs s' k
      | O =>
          match opening langs s with
          | Some n =>
              match before_fence (Py.drop_str n s) with
              | Some body =>
                  body :: findall_from langs s' (n + String.length body + 2)
              | None => findall_from langs s' 0
              end
          | None => findall_from langs s' 0
          end
      end
  end.

Definition findall (langs : list string) (s : string) : list string :=
  findall_from langs s 0.

(** The alternatives of [(?:html|css|javascript|js|python|json)?] *)
Definition any_lang : list string :=
  ["html"; "css"; "javascript"; "js"; "python"; "json"; ""].

(** The first pattern with a match gives [max(matches, key=len)]. *)
Fixpoint first_match (patterns : list (list string)) (s : string) : option string :=
  match patterns with
  | [] => None
  | langs :: patterns' =>
      match findall langs s with
      | m :: ms => Some (Py.max_by_len m ms)
      | [] => first_match patterns' s
      end
  end.

End Fence.

(** What a stage invocation yields: the dictionary it returns, or an
    exception that escapes it. *)
Inductive outcome :=
| Returns (st : State)
| Escapes (exc : string).

(** ** Coder ([coder.py]) *)

Module Coder.
Section Coder.
Context `{Collaborators}.

(** [extract_code_from_response(response_text)] *)
Definition extract_code_from_response (response_text : string) : option string :=
  Fence.first_match [Fence.any_lang; [""]] response_text.

(** [extract_and_execute_tool_call(error_message)] *)
Definition extract_and_execute_tool_call (error_message : string) (w : World)
    : World * bool :=
  match decode_write_file_call error_message with
  | Some (p, content) =>
      if negb (Py.is_empty p) && negb (Py.is_empty content) then
        let '(d, result) := Tools.write_file p content (disk w) in
        (set_disk w d, Py.contains "SUCCESS" result || Py.contains "Wrote" result)
      else (w, false)
  | None => (w, false)
  end.

(** The reply of the direct-generation tier, reduced to the file body. *)
Definition fallback_body (reply : string) : string :=
  let content :=
    match extract_code_from_response reply with
    | Some extracted => if Py.is_empty extracted then reply else extracted
    | None => reply
    end in
  let content := Py.strip content in
  if Py.startswith content "```" then
    let lines := Py.split Py.LF content in
    if (2 <? length lines)%nat then Py.join Py.nl (removelast (tail lines))
    else content
  else content.

(** Third tier: direct generation without tools. *)
Definition direct_generation (task : ImplementationTask) (w : World) : World * bool :=
  let n := llm_calls w in
  let w := tick w in
  match llm_invoke n (coder_fallback_prompt (filepath task) (task_description task)) with
  | Reply reply =>
      let content := fallback_body reply in
      if Py.is_empty content then (w, false)
      else
        let '(d, write_result) := Tools.write_file (filepath task) content (disk w) in
        (set_disk w d, Py.contains "SUCCESS" write_result)
  | Raise _ => (w, false)
  end.

(** The agent's own [write_file] calls, in order. *)
Definition apply_writes (ws : list (string * string)) (d : gmap (list string) string)
    : gmap (list string) string :=
  foldl (fun d '(p, c) => fst (Tools.write_file p c d)) d ws.

(** The three tiers for one task; the flag is [file_written]. *)
Definition generate (task : ImplementationTask) (user : string) (w : World)
    : World * bool :=
  let n := llm_calls w in
  let w := tick w in
  let '(ws, res) := react_agent_invoke n coder_system_prompt user in
  let w := set_disk w (apply_writes ws (disk w)) in
  match res with
  | Reply _ => (w, true)
  | Raise error_str =>
      let '(w, file_written) :=
        if Py.contains "failed_generation" error_str
        then extract_and_execute_tool_call error_str w
        else (w, false) in
      if file_written then (w, true) else direct_generation task w
  end.

Definition append_completed (cs : CoderState) (p : string) : CoderState :=
  {| cs_task_plan := cs_task_plan cs;
     current_step_idx := current_step_idx cs;
     completed_files := (completed_files cs ++ [p])%list;
     failed_files := failed_files cs;
     current_file_content := current_file_content cs |}.

Definition append_failed (cs : CoderState) (p : string) : CoderState :=
  {| cs_task_plan := cs_task_plan cs;
     current_step_idx := current_step_idx cs;
     completed_files := completed_files cs;
     failed_files := (failed_files cs ++ [p])%list;
     current_file_content := current_file_content cs |}.

Definition advance (cs : CoderState) : CoderState :=
  {| cs_task_plan := cs_task_plan cs;
     current_step_idx := current_step_idx cs + 1;
     completed_files := completed_files cs;
     failed_files := failed_files cs;
     current_file_content := current_file_content cs |}.

Definition coder_result (st : State) (cs : CoderState) (status_ : string) : State :=
  {| user_prompt := None; plan := plan st; task_plan := task_plan st;
     coder_state := Some cs; review_state := None;
     current_phase := Some CODING; status := Some status_; errors := None |}.

(** What is at the target path already; an unreadable file counts as empty. *)
Definition existing_content (task : ImplementationTask) (w : World) : string :=
  let existing_content := Tools.read_file (filepath task) (disk w) in
  if Py.startswith existing_content "ERROR" then "" else existing_content.

(** The body of the outer [try]: the updated coder state. *)
Definition code_step (cs : CoderState) (task : ImplementationTask) (w : World)
    : World * CoderState :=
  let existing_content := existing_content task w in
  match get_project_context_summary (disk w) 5 300 with
  | Reply project_context =>
      let user :=
        coder_task_prompt (task_description task) (filepath task)
          existing_content project_context in
      let '(w, file_written) := generate task user w in
      (w, if file_written then append_completed cs (filepath task)
          else append_failed cs (filepath task))
  | Raise _ => (w, append_failed cs (filepath task))
  end.

(** [coder_agent(state)] *)
Definition coder_agent (w : World) (state : State) : World * outcome :=
  match task_plan state with
  | None =>
      (w, Returns
            {| user_prompt := None; plan := None; task_plan := None;
               coder_state := None; review_state := None;
               current_phase := Some FAILED; status := Some "FAILED";
               errors := Some ["No task plan provided to coder"] |})
  | Some tp =>
      let cs :=
        match coder_state state with
        | Some cs => cs
        | None => new_CoderState tp (Some 0) (Some []) (Some [])
        end in
      let steps := implementation_steps (cs_task_plan cs) in
      let total := Z.of_nat (length steps) in
      if total <=? current_step_idx cs then (w, Returns (coder_result state cs "coded"))
      else
        match Py.index steps (current_step_idx cs) with
        | None => (w, Escapes "IndexError: list index out of range")
        | Some current_task =>
            let '(w, cs) := code_step cs current_task w in
            let cs := advance cs in
            if total <=? current_step_idx cs
            then (w, Returns (coder_result state cs "coded"))
            else (w, Returns (coder_result state cs "coding"))
        end
  end.

(** The states the engine can hold while it loops on the coder: the state
    handed to the first invocation, which has a task plan and no coder
    state yet, and every state a later invocation returns. *)
Inductive coder_run (tp : TaskPlan) : World -> State -> Prop :=
| run_start (w : World) (st : State) :
    task_plan st = Some tp -> coder_state st = None -> coder_run tp w st
| run_step (w w' : World) (st st' : State) :
    coder_run tp w st -> coder_agent w st = (w', Returns st') ->
    coder_run tp w' st'.

(** Each attempted step has its filepath in one of the two lists. *)
Definition covers (cs : CoderState) : Prop :=
  0 <= current_step_idx cs <= Z.of_nat (length (implementation_steps (cs_task_plan cs)))
  /\ Z.of_nat (length (completed_files cs) + length (failed_files cs)) = current_step_idx cs
  /\ (completed_files cs ++ failed_files cs)%list
     ≡ₚ filepath <$> take (Z.to_nat (current_step_idx cs))
                       (implementation_steps (cs_task_plan cs)).

End Coder.
End Coder.

(** ** Reviewer ([reviewer.py]) *)

Module Reviewer.
Section Reviewer.
Context `{Collaborators}.

Definition issue_words : list string :=
  ["issue"; "error"; "missing"; "incorrect"; "should"; "need"; "fix"; "add";
   "remove"; "change"].

Definition issue_line (line : string) : bool :=
  let line := Py.strip line in
  if Py.is_empty line || (Py.len line <? 10) then false
  else if Py.startswith (Py.upper line) "PASS" || Py.startswith (Py.upper line) "FAIL"
  then false
  else if Py.startswith line "Result:" || Py.startswith line "Issues" then false
  else existsb (fun word => Py.contains word (Py.lower line)) issue_words
       && (15 <? Py.len line) && (Py.len line <? 300).

(** [extract_issues_from_response(response_text)] *)
Definition extract_issues_from_response (response_text : string) : list string :=
  let cleaned := clean_review_response response_text in
  take 5 (Py.strip <$> List.filter issue_line (Py.split Py.LF cleaned)).

Definition quality_issue (desc sugg : string) : CodeIssue :=
  new_CodeIssue "quality" desc sugg MEDIUM.

(** The review built from the reply to the PASS/FAIL text protocol. *)
Definition simple_review (fp reply : string) : CodeReview :=
  let response_text := Py.strip reply in
  let lines := Py.split Py.LF response_text in
  let first_line := Py.upper (Py.strip (hd "" lines)) in
  let is_pass :=
    String.eqb first_line "PASS"
    || (Py.startswith first_line "PASS" && negb (Py.contains "FAIL" first_line)) in
  let issues_ :=
    if is_pass then []
    else
      match extract_issues_from_response response_text with
      | [] =>
          let second_line := Py.strip (nth 1 lines "") in
          let second_line := clean_review_response second_line in
          let issue_desc :=
            if negb (Py.is_empty second_line)
               && (10 <? Py.len second_line) && (Py.len second_line <? 200)
            then second_line
            else "Code review failed for " +:+ fp in
          [quality_issue issue_desc "Review and fix the code"]
      | extracted_issues =>
          (fun issue_text => quality_issue (Py.prefix_of 200 issue_text)
                               "Fix the identified issue")
            <$> take 2 extracted_issues
      end in
  {| review_filepath := fp; issues := issues_; passed := is_pass;
     overall_quality := if is_pass then 7 else 5;
     summary := if is_pass then "PASS" else "FAIL" |}.

(** A failed review that names no issue receives a placeholder. *)
Definition ensure_issue (fp : string) (r : CodeReview) : CodeReview :=
  if negb (passed r) && (length (issues r) =? 0)%nat then
    {| review_filepath := review_filepath r;
       issues := (issues r ++
         [new_CodeIssue "unspecified"
            ("Review failed for " +:+ fp +:+ " without specific issues")
            "Manual review recommended" MEDIUM])%list;
       passed := passed r; overall_quality := overall_quality r;
       summary := summary r |}
  else r.

Definition missing_review (fp : string) : CodeReview :=
  {| review_filepath := fp;
     issues := [new_CodeIssue "missing" "File does not exist or is empty"
                  "Ensure the file is created with proper content" CRITICAL];
     passed := false; overall_quality := 0; summary := "File missing or empty" |}.

(** The review recorded when reviewing a file raised. *)
Definition error_review (fp e : string) : CodeReview :=
  {| review_filepath := fp; issues := []; passed := true; overall_quality := 6;
     summary := "Review error: " +:+ Py.prefix_of 50 e |}.

(** The [try] block for one file with content: structured review, recovery
    from the error text, then the text protocol. *)
Definition review_file (step : ImplementationTask) (content : string) (w : World)
    : World * CodeReview :=
  let fp := filepath step in
  let n := llm_calls w in
  let w := tick w in
  let review :=
    match llm_structured_review n (reviewer_prompt fp content (task_description step)) with
    | Reply r => r
    | Raise error_str =>
        if Py.contains "failed_generation" error_str
        then parse_review_from_error error_str fp else None
    end in
  match review with
  | Some r => (w, ensure_issue fp r)
  | None =>
      let n := llm_calls w in
      let w := tick w in
      match llm_invoke n (reviewer_simple_prompt (Py.upper (Py.file_ext fp)) fp content) with
      | Reply reply => (w, ensure_issue fp (simple_review fp reply))
      | Raise e => (w, error_review fp e)
      end
  end.

Definition unreadable (content : string) : bool :=
  Py.is_empty content || Py.startswith content "ERROR" || (Py.len (Py.strip content) <? 5).

(** One turn of the loop over the steps: the world, [review_state.reviews]
    and [all_passed]. *)
Definition review_step (preserved_reviews : list (string * CodeReview))
    (files_to_review : gset string)
    (acc : World * list CodeReview * bool) (step : ImplementationTask)
    : World * list CodeReview * bool :=
  let '(w, revs, ok) := acc in
  let fp := filepath step in
  match Py.dict_get fp preserved_reviews with
  | Some r => (w, (revs ++ [r])%list, ok)
  | None =>
      if bool_decide (fp ∈ files_to_review) then
        let content := Tools.read_file fp (disk w) in
        if unreadable content then (w, (revs ++ [missing_review fp])%list, false)
        else
          let '(w, r) := review_file step content w in
          (w, (revs ++ [r])%list, ok && passed r)
      else acc
  end.

(** The passed reviews to keep and the failed files to review again. *)
Definition partition_reviews (existing : list CodeReview)
    : list (string * CodeReview) * gset string :=
  foldl (fun '(preserved, todo) review =>
           if passed review
           then (Py.dict_set (review_filepath review) review preserved, todo)
           else (preserved, todo ∪ {[review_filepath review]}))
        ([], ∅) existing.

Definition reviewer_result (st : State) (cs : CoderState) (rs : ReviewState)
    (status_ : string) : State :=
  {| user_prompt := user_prompt st; plan := plan st; task_plan := task_plan st;
     coder_state := Some cs; review_state := Some rs;
     current_phase := Some REVIEWING; status := Some status_; errors := None |}.

(** The coder state the reviewer works on: the one in the state, else one
    rebuilt from the task plan with every step completed, else none. *)
Definition review_input (state : State) : option CoderState :=
  match coder_state state with
  | Some cs => Some cs
  | None =>
      match task_plan state with
      | Some tp =>
          Some (new_CoderState tp
                  (Some (Z.of_nat (length (implementation_steps tp))))
                  (Some (filepath <$> implementation_steps tp)) (Some []))
      | None => None
      end
  end.

(** [reviewer_agent(state)] *)
Definition reviewer_agent (w : World) (state : State) : World * State :=
  match review_input state with
  | None =>
      (w, {| user_prompt := user_prompt state; plan := plan state;
             task_plan := task_plan state; coder_state := None;
             review_state := None; current_phase := Some FAILED;
             status := Some "FAILED";
             errors := Some ["No coder state or task plan available"] |})
  | Some cs =>
      let steps := implementation_steps (cs_task_plan cs) in
      let '(review_state_, preserved_reviews, files_to_review) :=
        match review_state state with
        | None =>
            (new_ReviewState (Some []) (Some 0) (Some 5) None,
             [], list_to_set (filepath <$> steps))
        | Some existing =>
            let '(preserved, todo) := partition_reviews (reviews existing) in
            (new_ReviewState (Some []) (Some (iteration existing + 1))
               (Some (max_iterations existing)) None,
             preserved, todo)
        end in
      if max_iterations review_state_ <=? iteration review_state_ then
        (w, reviewer_result state cs
              {| reviews := Py.dict_values preserved_reviews;
                 iteration := iteration review_state_;
                 max_iterations := max_iterations review_state_;
                 all_passed := true |}
              "review_max_iterations")
      else
        let '(w, revs, ok) :=
          foldl (review_step preserved_reviews files_to_review) (w, [], true) steps in
        (w, reviewer_result state cs
              {| reviews := revs;
                 iteration := iteration review_state_;
                 max_iterations := max_iterations review_state_;
                 all_passed := ok |}
              "reviewed")
  end.

(** A review that may leave the stage: if it failed, it names an issue. *)
Definition complete (r : CodeReview) : Prop := passed r = false -> issues r <> [].

End Reviewer.
End Reviewer.

(** ** Fixer ([fixer.py]) *)

Module Fixer.
Section Fixer.
Context `{Collaborators}.

Definition lang_map : gmap string (list string) :=
  list_to_map [("js", ["javascript"; "js"]); ("py", ["python"; "py"]);
               ("html", ["html"]); ("css", ["css"]); ("json", ["json"])].

(** [extract_code_from_response(response_text, file_extension)] *)
Definition extract_code_from_response (response_text file_extension : string)
    : option string :=
  let specific := (fun lang => [lang]) <$> default [] (lang_map !! file_extension) in
  Fence.first_match (specific ++ [Fence.any_lang; [""]])%list response_text.

(** The index of the last line that is a bare fence, else [len(lines)]. *)
Fixpoint closing_fence (lines : list string) (i : nat) : option nat :=
  match lines with
  | [] => None
  | l :: lines' =>
      match closing_fence lines' (S i) with
      | Some j => Some j
      | None => if String.eqb (Py.strip l) Fence.fence then Some i else None
      end
  end.

(** [clean_code_response(content)] *)
Definition clean_code_response (content : string) : string :=
  let content := Py.strip content in
  let content :=
    if Py.startswith content "```" then
      let lines := Py.split Py.LF content in
      let start_idx := if Py.startswith (hd "" lines) "```" then 1%nat else 0%nat in
      let end_idx := default (length lines) (closing_fence lines 0) in
      Py.join Py.nl (drop start_idx (take end_idx lines))
    else content in
  Py.strip content.

(** The local lists that the FIX SUMMARY prints. *)
Record FixReport := {
  fixed_files : list string;
  failed_fixes : list (string * string)
}.

Definition no_report : FixReport := {| fixed_files := []; failed_fixes := [] |}.

Definition add_fixed (r : FixReport) (fp : string) : FixReport :=
  {| fixed_files := (fixed_files r ++ [fp])%list; failed_fixes := failed_fixes r |}.

Definition add_failed (r : FixReport) (fp reason : string) : FixReport :=
  {| fixed_files := fixed_files r;
     failed_fixes := (failed_fixes r ++ [(fp, reason)])%list |}.

(** The body that replaces the file: the reply after extraction. *)
Definition fixed_body (reply file_ext : string) : string :=
  let fixed_content := Py.strip reply in
  match extract_code_from_response fixed_content file_ext with
  | Some extracted =>
      if Py.is_empty extracted then clean_code_response fixed_content else extracted
  | None => clean_code_response fixed_content
  end.

(** [not fixed_content or len(fixed_content.strip()) < 10] *)
Definition empty_fix (fixed_content : string) : bool :=
  Py.is_empty fixed_content || (Py.len (Py.strip fixed_content) <? 10).

(** [new_length < original_length * 0.3].  The product is rounded to a
    double; for lengths below 2^50 the comparison of the integer
    [new_length] with it agrees with the exact [10 * new < 3 * original]. *)
Definition much_shorter (new_length original_length : Z) : bool :=
  10 * new_length <? 3 * original_length.

(** One turn of the loop over [files_to_fix]. *)
Definition fix_candidate (acc : World * FixReport) (review : CodeReview)
    : World * FixReport :=
  let '(w, rep) := acc in
  let fp := review_filepath review in
  let content := Tools.read_file fp (disk w) in
  let rep :=
    if Py.is_empty content || Py.startswith content "ERROR"
    then add_failed rep fp "Cannot read file" else rep in
  let original_length := Py.len content in
  let file_ext := Py.file_ext fp in
  let n := llm_calls w in
  let w := tick w in
  match llm_invoke n (fixer_prompt file_ext fp content (issues review)) with
  | Raise e => (w, add_failed rep fp ("Exception: " +:+ Py.prefix_of 100 e))
  | Reply reply =>
      let fixed_content := fixed_body reply file_ext in
      if empty_fix fixed_content then (w, add_failed rep fp "Empty fix generated")
      else
        let new_length := Py.len fixed_content in
        if much_shorter new_length original_length
        then (w, add_failed rep fp "Fix too short, possible content loss")
        else
          let '(d, write_result) := Tools.write_file fp fixed_content (disk w) in
          let w := set_disk w d in
          if Py.contains "SUCCESS" write_result then (w, add_fixed rep fp)
          else (w, add_failed rep fp ("Write failed: " +:+ write_result))
  end.

(** A failed review without issues is promoted to passed, in place. *)
Definition promote (review : CodeReview) : CodeReview :=
  if negb (passed review) && (length (issues review) =? 0)%nat then
    {| review_filepath := review_filepath review; issues := issues review;
       passed := true; overall_quality := overall_quality review;
       summary := summary review |}
  else review.

Definition is_candidate (review : CodeReview) : bool :=
  negb (passed review) && negb (length (issues review) =? 0)%nat.

Definition fixer_result (st : State) (rs : option ReviewState) : State :=
  {| user_prompt := user_prompt st; plan := plan st; task_plan := task_plan st;
     coder_state := coder_state st; review_state := rs;
     current_phase := Some FIXING; status := Some "fixed"; errors := None |}.

(** [fixer_agent(state)], with the report it prints. *)
Definition fixer_agent (w : World) (state : State) : World * State * FixReport :=
  match review_state state with
  | None => (w, fixer_result state None, no_report)
  | Some rs =>
      let files_to_fix := List.filter is_candidate (reviews rs) in
      let rs :=
        {| reviews := promote <$> reviews rs; iteration := iteration rs;
           max_iterations := max_iterations rs; all_passed := all_passed rs |} in
      let '(w, rep) := foldl fix_candidate (w, no_report) files_to_fix in
      (w, fixer_result state (Some rs), rep)
  end.

End Fixer.
End Fixer.

(** ** Routing ([graph.py]) *)

Module Graph.

Inductive Node :=
| planner | architect | coder | reviewer | fixer
| test_generator | test_runner | finalizer | END.

(** [route_after_coder(state)] *)
Definition route_after_coder (state : State) : string :=
  match coder_state state with
  | None => "reviewer"
  | Some cs =>
      let total_steps := Z.of_nat (length (implementation_steps (cs_task_plan cs))) in
      if total_steps <=? current_step_idx cs then "reviewer" else "coder"
  end.

(** [route_after_review(state)] *)
Definition route_after_review (state : State) : string :=
  match review_state state with
  | None => "test_generator"
  | Some rs =>
      if all_passed rs then "test_generator"
      else if max_iterations rs <=? iteration rs then "test_generator"
      else "fixer"
  end.

(** [route_after_tests(state)] *)
Definition route_after_tests (state : State) : string := "finalizer".

(** The edges that [create_graph] adds: the successor of a node in a
    state; a conditional edge looks the router's answer up in its table. *)
Definition successor (n : Node) (state : State) : option Node :=
  match n with
  | planner => Some architect
  | architect => Some coder
  | coder =>
      ({[ "coder" := coder; "reviewer" := reviewer ]} : gmap string Node)
        !! route_after_coder state
  | reviewer =>
      ({[ "fixer" := fixer; "test_generator" := test_generator ]} : gmap string Node)
        !! route_after_review state
  | fixer => Some reviewer
  | test_generator => Some test_runner
  | test_runner =>
      ({[ "finalizer" := finalizer ]} : gmap string Node) !! route_after_tests state
  | finalizer => Some END
  | END => None
  end.

End Graph.

(** ** Scripted collaborators

    A host with a plain tree under [/srv/generated_project], no refused
    reads or writes, and a language model that answers call number [n] as
    the scripts say.  Used to run the stages on concrete inputs. *)

Module Script.

Definition root : list string := ["srv"; "generated_project"].

Definition host
    (react : nat -> list (string * string) * call_result unit)
    (replies : nat -> call_result string)
    (structured : nat -> call_result (option CodeReview)) : Collaborators :=
  {| PROJECT_ROOT := root;
     os_write_error := fun _ _ => None;
     os_read_error := fun _ _ => None;
     get_project_context_summary := fun _ _ _ => Reply "No files in project yet.";
     llm_invoke := fun n _ => replies n;
     llm_structured_review := fun n _ => structured n;
     react_agent_invoke := fun n _ _ => react n;
     coder_system_prompt := "You are the CODER agent.";
     coder_task_prompt := fun task fp existing context =>
       "Task: " +:+ task +:+ " File: " +:+ fp +:+ " Existing: " +:+ existing
         +:+ " Context: " +:+ context;
     coder_fallback_prompt := fun fp task =>
       "Generate the complete code for: " +:+ fp +:+ " Task: " +:+ task;
     reviewer_prompt := fun fp content task =>
       "Review " +:+ fp +:+ " Task: " +:+ task +:+ " Code: " +:+ content;
     reviewer_simple_prompt := fun ext fp content =>
       "Review this " +:+ ext +:+ " code file. File: " +:+ fp +:+ " Code: " +:+ content;
     fixer_prompt := fun ext fp content _ =>
       "Fix the following issues in this " +:+ Py.upper ext +:+ " file. FILE: " +:+ fp
         +:+ " CURRENT CODE: " +:+ content;
     decode_write_file_call := fun _ => None;
     parse_review_from_error := fun _ _ => None;
     clean_review_response := fun s => s |}.

Definition silent_react : nat -> list (string * string) * call_result unit :=
  fun _ => ([], Reply tt).
Definition failing_react : nat -> list (string * string) * call_result unit :=
  fun _ => ([], Raise "connection reset").
Definition no_reply : nat -> call_result string := fun _ => Raise "connection reset".
Definition no_structure : nat -> call_result (option CodeReview) := fun _ => Reply None.

(** A host whose model never answers. *)
Definition plain : Collaborators := host failing_react no_reply no_structure.

Definition fresh_world : World := {| disk := ∅; llm_calls := 0 |}.

Definition task (fp : string) (prio : Z) : ImplementationTask :=
  {| filepath := fp; task_description := "Create " +:+ fp; dependencies := [];
     expected_exports := []; priority := prio |}.

Definition file (p : string) : File :=
  {| path := p; purpose := "part of the page"; file_dependencies := [] |}.

Definition web_plan : Plan :=
  {| name := "todo"; description := "A todo list"; techstack := "html/css/js";
     features := ["add items"; "remove items"];
     files := [file "index.html"; file "style.css"; file "script.js"];
     architecture_notes := "" |}.

Definition failed_review (fp : string) : CodeReview :=
  {| review_filepath := fp;
     issues := [new_CodeIssue "logic" "Button does nothing" "Add a click handler" HIGH];
     passed := false; overall_quality := 4; summary := "FAIL" |}.

Definition web_task_plan : TaskPlan :=
  new_TaskPlan None [task "index.html" 1; task "style.css" 2].

Definition with_task_plan (tp : TaskPlan) : State :=
  {| user_prompt := Some "a todo list"; plan := None; task_plan := Some tp;
     coder_state := None; review_state := None; current_phase := None;
     status := None; errors := None |}.

Definition with_review_state (tp : option TaskPlan) (rs : ReviewState) : State :=
  {| user_prompt := Some "a todo list"; plan := None; task_plan := tp;
     coder_state := None; review_state := Some rs; current_phase := None;
     status := None; errors := None |}.

Definition passed_review (fp : string) : CodeReview :=
  {| review_filepath := fp; issues := []; passed := true; overall_quality := 8;
     summary := "PASS" |}.

(** A model whose first tool-using call fails and whose later ones end
    normally without writing anything. *)
Definition flaky : Collaborators :=
  host (fun n => if (n =? 0)%nat then ([], Raise "connection reset") else ([], Reply tt))
       no_reply no_structure.

(** A model whose tool-using calls end normally without writing anything. *)
Definition idle : Collaborators := host silent_react no_reply no_structure.

(** A task plan with two tasks for one file. *)
Definition two_pass_plan : TaskPlan :=
  new_TaskPlan None [task "index.html" 1; task "index.html" 2].

(** A model that answers every plain call with the same text. *)
Definition answering (reply : string) : Collaborators :=
  host failing_react (fun _ => Reply reply) no_structure.

(** A tree that holds [script.js], 60 characters long. *)
Definition script_js : string :=
  "document.getElementById('add').addEventListener('click', f);".

Definition with_script : World :=
  {| disk := {[ ["srv"; "generated_project"; "script.js"] := script_js ]};
     llm_calls := 0 |}.

(** The review state the reviewer leaves when [index.html] passed and
    [script.js] was found missing. *)
Definition one_missing : ReviewState :=
  {| reviews := [passed_review "index.html"; Reviewer.missing_review "script.js"];
     iteration := 0; max_iterations := 5; all_passed := false |}.

(** A review state at its cap, with one file still failing. *)
Definition capped : ReviewState :=
  {| reviews := [passed_review "index.html"; failed_review "style.css"];
     iteration := 5; max_iterations := 5; all_passed := false |}.

End Script.

(** ** Architect: the stage ([architect.py]) *)

(** The collaborators of the architect: its prompt template, the structured
    generation of a task plan, which may also return [None], and
    [parse_failed_generation(error_message)], the regular-expression and
    JSON decoding of a task plan out of an error text. *)
Class Planning := {
  architect_prompt : Plan -> string;
  llm_structured_task_plan : string -> call_result (option TaskPlan);
  parse_failed_generation : string -> option TaskPlan
}.

Module ArchitectAgent.
Section ArchitectAgent.
Context `{Planning}.

(** [task_plan.plan = plan] followed by
    [task_plan.implementation_steps.sort(key=lambda x: x.priority)] *)
Definition adopt (pl : Plan) (tp : TaskPlan) : TaskPlan :=
  {| tp_plan := Some pl;
     implementation_steps := Py.sort_by priority (implementation_steps tp);
     total_estimated_tokens := total_estimated_tokens tp |}.

(** [task_plan.plan = plan] alone, as done for the fallback plan. *)
Definition attach (pl : Plan) (tp : TaskPlan) : TaskPlan :=
  {| tp_plan := Some pl;
     implementation_steps := implementation_steps tp;
     total_estimated_tokens := total_estimated_tokens tp |}.

(** The task plan of the two generation tiers, if either gives one. *)
Definition generated_task_plan (pl : Plan) : option TaskPlan :=
  match llm_structured_task_plan (architect_prompt pl) with
  | Reply (Some response) => Some (adopt pl response)
  | Reply None => None
  | Raise error_str =>
      if Py.contains "failed_generation" error_str
      then adopt pl <$> parse_failed_generation error_str
      else None
  end.

(** [architect_agent(state)] *)
Definition architect_agent (state : State) : State :=
  match plan state with
  | None =>
      {| user_prompt := None; plan := None; task_plan := None; coder_state := None;
         review_state := None; current_phase := Some FAILED; status := Some "FAILED";
         errors := Some ["No plan provided to architect"] |}
  | Some pl =>
      let tp :=
        match generated_task_plan pl with
        | Some tp => tp
        | None => attach pl (Architect.create_fallback_task_plan pl)
        end in
      {| user_prompt := None; plan := Some pl; task_plan := Some tp;
         coder_state := None; review_state := None;
         current_phase := Some ARCHITECTING; status := Some "architected";
         errors := None |}
  end.

End ArchitectAgent.
End ArchitectAgent.

(** ** The two loops of the graph

    The graph re-enters the coder while [route_after_coder] answers
    [coder], and alternates reviewer and fixer while [route_after_review]
    answers [fixer].  Each loop hands the dictionary a stage returns to the
    next stage; [fuel] bounds the number of re-entries, and [None] means that
    the bound was reached or that an exception escaped. *)

Module Loops.
Section Loops.
Context `{Collaborators}.

Fixpoint coder_loop (fuel : nat) (w : World) (st : State) : option (World * State) :=
  match Coder.coder_agent w st with
  | (w', Returns st') =>
      if String.eqb (Graph.route_after_coder st') "coder" then
        match fuel with
        | O => None
        | S fuel' => coder_loop fuel' w' st'
        end
      else Some (w', st')
  | (_, Escapes _) => None
  end.

Fixpoint review_fix_loop (fuel : nat) (w : World) (st : State) : option (World * State) :=
  let '(w1, st1) := Reviewer.reviewer_agent w st in
  if String.eqb (Graph.route_after_review st1) "fixer" then
    match fuel with
    | O => None
    | S fuel' =>
        let '(w2, st2, _) := Fixer.fixer_agent w1 st1 in
        review_fix_loop fuel' w2 st2
    end
  else Some (w1, st1).

(** The number of fixer passes still possible before the cap forces
    acceptance, for the state a reviewer pass starts from. *)
Definition passes_left (st : State) : Z :=
  match review_state st with
  | None => 5
  | Some rs => max_iterations rs - (iteration rs + 1)
  end.

End Loops.
End Loops.

(** ** Vocabulary of the statements *)

(** The character [a] occurs in [s]. *)
Fixpoint has_char (a : ascii) (s : string) : bool :=
  match s with
  | EmptyString => false
  | String c s' => Ascii.eqb c a || has_char a s'
  end.

Definition backtick : ascii := "`"%char.

(** A language tag as the patterns have them: no line break, no backtick. *)
Definition plain_tag (l : string) : Prop :=
  has_char Py.LF l = false /\ has_char backtick l = false.

(** The coder state an invocation works on: the one in the state, or a
    fresh one for the task plan. *)
Definition working_state (tp : TaskPlan) (st : State) : CoderState :=
  match coder_state st with
  | Some cs => cs
  | None => new_CoderState tp (Some 0) (Some []) (Some [])
  end.

(** The number of steps not yet attempted. *)
Definition steps_left (tp : TaskPlan) (st : State) : nat :=
  Z.to_nat (Z.of_nat (length (implementation_steps tp))
            - current_step_idx (working_state tp st)).

(** Sorted by priority, ascending. *)
Definition by_priority (steps : list ImplementationTask) : Prop :=
  StronglySorted (fun a b => priority a <= priority b) steps.

(** The issue given to a failed review that names none. *)
Definition unspecified_issue (fp : string) : CodeIssue :=
  {| line_number := None; issue_type := "unspecified";
     issue_description := "Review failed for " +:+ fp +:+ " without specific issues";
     suggestion := "Manual review recommended"; severity := MEDIUM |}.

(** What the first two tiers of the reviewer yield for a file: the
    structured review, or the one recovered from the text of a
    [failed_generation] error. *)
Definition structured_review `{Collaborators} (n : nat) (step : ImplementationTask)
    (content : string) : option CodeReview :=
  match llm_structured_review n
          (reviewer_prompt (filepath step) content (task_description step)) with
  | Reply r => r
  | Raise e =>
      if Py.contains "failed_generation" e
      then parse_review_from_error e (filepath step) else None
  end.

(** The reviews a pass keeps and the files it reviews. *)
Definition review_queue (st : State) (cs : CoderState)
    : list (string * CodeReview) * gset string :=
  match review_state st with
  | None => ([], list_to_set (filepath <$> implementation_steps (cs_task_plan cs)))
  | Some existing => Reviewer.partition_reviews (reviews existing)
  end.

(** The pass about to start is not the one that reaches the cap. *)
Definition below_cap (st : State) : Prop :=
  match review_state st with
  | None => True
  | Some existing => iteration existing + 1 < max_iterations existing
  end.

(** [review] with [passed] set to [b]. *)
Definition with_passed (b : bool) (review : CodeReview) : CodeReview :=
  {| review_filepath := review_filepath review; issues := issues review;
     passed := b; overall_quality := overall_quality review;
     summary := summary review |}.

Module Cases.

(** A failed review that names no issue. *)
Definition bare_review (fp : string) : CodeReview :=
  {| review_filepath := fp; issues := []; passed := false; overall_quality := 3;
     summary := "Incomplete" |}.

(** A model whose structured reviews fail every file without naming an
    issue. *)
Definition terse : Collaborators :=
  Script.host Script.failing_react Script.no_reply
    (fun _ => Reply (Some (bare_review "script.js"))).

Definition script_plan : TaskPlan := new_TaskPlan None [Script.task "script.js" 3].

(** A review state with a passed review, a failed one that names an issue
    and a failed one that names none. *)
Definition mixed : ReviewState :=
  {| reviews := [Script.passed_review "index.html"; Script.failed_review "style.css";
                 bare_review "script.js"];
     iteration := 1; max_iterations := 5; all_passed := false |}.

End Cases.

(** * Properties *)

(** ** Routing *)

Section RoutingFacts.

Lemma route_after_review_cases (st : State) :
  Graph.route_after_review st = "fixer" \/ Graph.route_after_review st = "test_generator".
Proof.
  unfold Graph.route_after_review.
  destruct (review_state st) as [rs|]; [|by right].
  destruct (all_passed rs); [by right|].
  destruct (max_iterations rs <=? iteration rs); [by right|by left].
Qed.

Lemma successor_reviewer (st : State) :
  Graph.successor Graph.reviewer st =
    if String.eqb (Graph.route_after_review st) "fixer"
    then Some Graph.fixer else Some Graph.test_generator.
Proof.
  destruct (route_after_review_cases st) as [E|E]; simpl; rewrite E; reflexivity.
Qed.

(** C3. After the reviewer the graph moves to the fixer exactly when the
    state holds a review state whose [all_passed] is false and whose
    iteration counter is below [max_iterations]; in every other case
    ([all_passed] true, cap reached, or no review state) it moves to the
    test generator. *)
Theorem route_after_review_spec (st : State) :
  (Graph.successor Graph.reviewer st = Some Graph.fixer <->
     exists rs, review_state st = Some rs /\ all_passed rs = false
                /\ iteration rs < max_iterations rs)
  /\ (Graph.successor Graph.reviewer st <> Some Graph.fixer <->
        Graph.successor Graph.reviewer st = Some Graph.test_generator)
  /\ (Graph.route_after_review st = "fixer" <->
        Graph.successor Graph.reviewer st = Some Graph.fixer)
  /\ match review_state st with
     | Some rs =>
         if all_passed rs || (max_iterations rs <=? iteration rs)
         then Graph.successor Graph.reviewer st = Some Graph.test_generator
         else Graph.successor Graph.reviewer st = Some Graph.fixer
     | None => Graph.successor Graph.reviewer st = Some Graph.test_generator
     end.
Proof.
  rewrite successor_reviewer. unfold Graph.route_after_review.
  destruct (review_state st) as [rs|] eqn:Ers; simpl.
  - destruct (all_passed rs) eqn:Ea; simpl.
    + repeat split; try done.
      intros (rs' & [= <-] & Hf & _). congruence.
    + destruct (max_iterations rs <=? iteration rs) eqn:Ec; simpl.
      * apply Z.leb_le in Ec. repeat split; try done.
        intros (rs' & [= <-] & _ & Hlt). lia.
      * apply Z.leb_gt in Ec. repeat split; try done.
        intros _. exists rs. auto.
  - repeat split; try done. intros (rs' & [=] & _).
Qed.

End RoutingFacts.

(** ** The fallback task plan *)

Section ArchitectFacts.

Lemma fallback_step_priority (pl : Plan) (i : nat) (f : File) :
  priority (Architect.fallback_step pl i f)
  = default (Z.of_nat i) (Architect.priority_map !! Architect.dotted_ext (path f)).
Proof. reflexivity. Qed.

(** C5, as stated, fails: [.html] has priority 1 in the extension table,
    so [index.html] does not receive priority 0. *)
Lemma fallback_index_html_priority_not_0 :
  Architect.step_summary <$> implementation_steps (Architect.create_fallback_task_plan Script.web_plan)
  <> [("index.html", 0); ("style.css", 2); ("script.js", 3)].
Proof. vm_compute. discriminate. Qed.

(** C5, amended. For a plan whose files are exactly [index.html],
    [style.css], [script.js] in that order, the fallback synthesizer
    assigns them the priorities 1, 2 and 3 of the extension table and
    returns the steps in that order. *)
Theorem fallback_web_plan_priorities (pl : Plan) :
  path <$> files pl = ["index.html"; "style.css"; "script.js"] ->
  Architect.step_summary <$> implementation_steps (Architect.create_fallback_task_plan pl)
  = [("index.html", 1); ("style.css", 2); ("script.js", 3)].
Proof.
  intros Hfiles.
  destruct (files pl) as [|f1 [|f2 [|f3 [|f4 fs]]]] eqn:Efs; try discriminate.
  injection Hfiles as H1 H2 H3.
  unfold Architect.create_fallback_task_plan. rewrite Efs.
  cbn [imap implementation_steps new_TaskPlan Py.sort_by foldl]. unfold compose.
  set (t1 := Architect.fallback_step pl 0 f1).
  set (t2 := Architect.fallback_step pl 1 f2).
  set (t3 := Architect.fallback_step pl 2 f3).
  assert (P1 : priority t1 = 1)
    by (unfold t1; rewrite fallback_step_priority, H1; reflexivity).
  assert (P2 : priority t2 = 2)
    by (unfold t2; rewrite fallback_step_priority, H2; reflexivity).
  assert (P3 : priority t3 = 3)
    by (unfold t3; rewrite fallback_step_priority, H3; reflexivity).
  cbn [Py.insert_by]. rewrite P1, P2. cbn [Z.ltb Z.compare Pos.compare Pos.compare_cont].
  cbn [Py.insert_by]. rewrite P1, P2, P3. cbn [Z.ltb Z.compare Pos.compare Pos.compare_cont].
  cbn [fmap list_fmap]. unfold Architect.step_summary. rewrite P1, P2, P3.
  unfold t1, t2, t3. cbn [filepath Architect.fallback_step]. rewrite H1, H2, H3.
  reflexivity.
Qed.

Lemma fallback_web_plan_priorities_witness :
  Architect.step_summary <$> implementation_steps (Architect.create_fallback_task_plan Script.web_plan)
  = [("index.html", 1); ("style.css", 2); ("script.js", 3)].
Proof. apply (fallback_web_plan_priorities Script.web_plan). reflexivity. Defined.

End ArchitectFacts.

(** ** Path confinement *)

Section ToolsFacts.
Context `{Collaborators}.

Lemma safe_path_within (p : string) (r : list string) :
  Tools.safe_path_for_project p = inl r -> PROJECT_ROOT `prefix_of` r.
Proof.
  unfold Tools.safe_path_for_project, Tools.within.
  destruct (Py.contains _ _); [discriminate|].
  case_bool_decide; [|discriminate]. intros [= <-]. assumption.
Qed.

Lemma safe_path_resolved (p : string) (r : list string) :
  Tools.safe_path_for_project p = inl r ->
  r = Tools.resolve_from PROJECT_ROOT
        (Tools.parts (if Tools.is_absolute p then Tools.path_name p else p)).
Proof.
  unfold Tools.safe_path_for_project.
  destruct (Py.contains _ _); [discriminate|].
  destruct (Tools.within _ _); [|discriminate]. by intros [= <-].
Qed.

Lemma write_file_rejected (p content e : string) (d : gmap (list string) string) :
  Tools.safe_path_for_project p = inr e ->
  Tools.write_file p content d = (d, "ERROR: Failed to write to " +:+ p +:+ ": " +:+ e).
Proof. unfold Tools.write_file. by intros ->. Qed.

Lemma write_file_disk (p content : string) (d : gmap (list string) string) :
  (Tools.write_file p content d).1 = d
  \/ exists r, Tools.safe_path_for_project p = inl r
               /\ (Tools.write_file p content d).1 = <[r := content]> d.
Proof.
  unfold Tools.write_file.
  destruct (Tools.safe_path_for_project p) as [r|e] eqn:E; [|by left].
  destruct (os_write_error d r); [by left|]. right. by exists r.
Qed.

Lemma write_file_outside (p content : string) (d : gmap (list string) string)
    (k : list string) :
  ¬ PROJECT_ROOT `prefix_of` k -> (Tools.write_file p content d).1 !! k = d !! k.
Proof.
  intros Hk. destruct (write_file_disk p content d) as [->|(r & Hr & ->)]; [done|].
  apply lookup_insert_ne. intros ->. by apply Hk, (safe_path_within p).
Qed.

End ToolsFacts.

(** C8, as stated, fails: an absolute path argument is not rejected.  Its
    final component is taken and resolved under the root, so writing to
    [/etc/passwd] succeeds and creates [passwd] in the project root. *)
Lemma absolute_path_not_rejected :
  Tools.is_absolute "/etc/passwd" = true
  /\ @Tools.safe_path_for_project Script.plain "/etc/passwd"
     = inl ["srv"; "generated_project"; "passwd"]
  /\ @Tools.write_file Script.plain "/etc/passwd" "x" ∅
     = ({[ ["srv"; "generated_project"; "passwd"] := "x" ]},
        "SUCCESS: Wrote 1 characters to /etc/passwd").
Proof. repeat split; vm_compute; reflexivity. Qed.

Section Confinement.
Context `{Collaborators}.

(** C8, amended. Every path argument of [write_file], [read_file] and
    [list_files] is resolved against the project root, an absolute argument
    being first replaced by its final component; a path that resolves
    outside the root is rejected: the tool returns an [ERROR] text, nothing
    is written, and no entry outside the root is ever changed. *)
Theorem path_confinement (p content : string) (d : gmap (list string) string)
    (k : list string) :
  ¬ PROJECT_ROOT `prefix_of` k ->
  match Tools.safe_path_for_project p with
  | inl r =>
      r = Tools.resolve_from PROJECT_ROOT
            (Tools.parts (if Tools.is_absolute p then Tools.path_name p else p))
      /\ PROJECT_ROOT `prefix_of` r /\ r <> k
  | inr e =>
      (Tools.write_file p content d).1 = d
      /\ Py.startswith (Tools.write_file p content d).2 "ERROR" = true
      /\ Py.startswith (Tools.read_file p d) "ERROR" = true
      /\ Py.startswith (Tools.list_files p d) "ERROR" = true
  end
  /\ (Tools.write_file p content d).1 !! k = d !! k.
Proof.
  intros Hk. split; [|by apply write_file_outside].
  destruct (Tools.safe_path_for_project p) as [r|e] eqn:E.
  - split; [by apply safe_path_resolved|].
    split; [by apply (safe_path_within p)|].
    intros ->. by apply Hk, (safe_path_within p).
  - rewrite (write_file_rejected _ _ _ _ E).
    unfold Tools.read_file, Tools.list_files. rewrite E. by repeat split.
Qed.

End Confinement.

Lemma path_confinement_witness :
  @Tools.safe_path_for_project Script.plain "../../etc/passwd"
  = inr "Security Error: Attempt to access path outside project root: ../../etc/passwd"
  /\ (@Tools.write_file Script.plain "../../etc/passwd" "x" ∅).1 !! ["etc"; "passwd"] = None.
Proof.
  split; [vm_compute; reflexivity|].
  refine (proj2 (@path_confinement Script.plain "../../etc/passwd" "x" ∅
                   ["etc"; "passwd"] _)).
  vm_compute. intros Hp. destruct Hp as [l Hl]. discriminate.
Defined.

(** ** Reviewer *)

Section ReviewerFacts.
Context `{Collaborators}.

Lemma ensure_issue_complete (fp : string) (r : CodeReview) :
  Reviewer.complete (Reviewer.ensure_issue fp r).
Proof.
  unfold Reviewer.complete, Reviewer.ensure_issue.
  destruct (passed r) eqn:Ep; simpl.
  - rewrite Ep. discriminate.
  - destruct (issues r) as [|i is_] eqn:Ei; simpl; intros _.
    + discriminate.
    + rewrite Ei. discriminate.
Qed.

Lemma review_file_complete (step : ImplementationTask) (content : string) (w : World) :
  Reviewer.complete (Reviewer.review_file step content w).2.
Proof.
  unfold Reviewer.review_file.
  destruct (match llm_structured_review _ _ with Reply r => r | Raise _ => _ end).
  - apply ensure_issue_complete.
  - destruct (llm_invoke _ _); simpl.
    + apply ensure_issue_complete.
    + discriminate.
Qed.

Lemma dict_get_values {V} (k : string) (d : list (string * V)) (v : V) :
  Py.dict_get k d = Some v -> v ∈ Py.dict_values d.
Proof.
  unfold Py.dict_values. induction d as [|[k' v'] d IH]; simpl; [discriminate|].
  destruct (String.eqb k' k).
  - intros [= ->]. apply list_elem_of_here.
  - intros Hg. apply list_elem_of_further, IH, Hg.
Qed.

Lemma dict_set_values {V} (P : V -> Prop) (k : string) (v : V) (d : list (string * V)) :
  P v -> Forall P (Py.dict_values d) -> Forall P (Py.dict_values (Py.dict_set k v d)).
Proof.
  unfold Py.dict_values. intros Hv. induction d as [|[k' v'] d IH]; simpl; intros Hd.
  - by constructor.
  - inversion Hd; subst. destruct (String.eqb k' k); simpl; constructor; auto.
Qed.

(** Only passed reviews are preserved. *)
Lemma partition_reviews_passed (existing : list CodeReview) :
  Forall (fun r => passed r = true) (Py.dict_values (Reviewer.partition_reviews existing).1).
Proof.
  unfold Reviewer.partition_reviews.
  assert (G : forall acc : list (string * CodeReview) * gset string,
             Forall (fun r => passed r = true) (Py.dict_values acc.1) ->
             Forall (fun r => passed r = true)
               (Py.dict_values
                  (foldl (fun '(preserved, todo) review =>
                            if passed review
                            then (Py.dict_set (review_filepath review) review preserved, todo)
                            else (preserved, todo ∪ {[review_filepath review]}))
                     acc existing).1)).
  { induction existing as [|r rs IH]; intros [pres todo] Hacc; simpl; [done|].
    apply IH. destruct (passed r) eqn:Er; simpl; [|done].
    by apply dict_set_values. }
  apply G. constructor.
Qed.

Lemma review_step_complete (preserved : list (string * CodeReview))
    (todo : gset string) (acc : World * list CodeReview * bool)
    (step : ImplementationTask) :
  Forall (fun r => passed r = true) (Py.dict_values preserved) ->
  Forall Reviewer.complete acc.1.2 ->
  Forall Reviewer.complete (Reviewer.review_step preserved todo acc step).1.2.
Proof.
  intros Hpres Hacc. destruct acc as [[w revs] ok]. simpl in Hacc.
  unfold Reviewer.review_step.
  destruct (Py.dict_get (filepath step) preserved) as [r|] eqn:Eg; simpl.
  - apply Forall_app; split; [done|]. constructor; [|done].
    apply dict_get_values in Eg. rewrite Forall_forall in Hpres.
    intros Hf. rewrite (Hpres _ Eg) in Hf. discriminate.
  - case_bool_decide; [|done].
    destruct (Reviewer.unreadable _); simpl.
    + apply Forall_app; split; [done|]. constructor; [|done]. discriminate.
    + pose proof (review_file_complete step
                    (Tools.read_file (filepath step) (disk w)) w) as Hc.
      destruct (Reviewer.review_file _ _ _) as [w' r]. simpl in *.
      apply Forall_app; split; [done|]. by constructor.
Qed.

Lemma review_loop_complete (preserved : list (string * CodeReview))
    (todo : gset string) (steps : list ImplementationTask)
    (acc : World * list CodeReview * bool) :
  Forall (fun r => passed r = true) (Py.dict_values preserved) ->
  Forall Reviewer.complete acc.1.2 ->
  Forall Reviewer.complete (foldl (Reviewer.review_step preserved todo) acc steps).1.2.
Proof.
  intros Hpres. revert acc.
  induction steps as [|s steps IH]; intros acc Hacc; simpl; [done|].
  apply IH. by apply review_step_complete.
Qed.

Lemma review_input_some (st : State) :
  coder_state st <> None \/ task_plan st <> None -> exists cs, Reviewer.review_input st = Some cs.
Proof.
  unfold Reviewer.review_input. intros [Hc|Ht].
  - destruct (coder_state st); [eauto|done].
  - destruct (coder_state st); [eauto|]. destruct (task_plan st); [eauto|done].
Qed.

End ReviewerFacts.

(** The input guard comes before the cap: a state that carries neither a
    coder state nor a task plan is an input error, answered with the FAILED
    dictionary, whatever its review state. *)
Lemma reviewer_cap_without_task_plan :
  max_iterations Script.capped <= iteration Script.capped
  /\ review_state (@Reviewer.reviewer_agent Script.plain Script.fresh_world
                     (Script.with_review_state None Script.capped)).2 = None
  /\ current_phase (@Reviewer.reviewer_agent Script.plain Script.fresh_world
                      (Script.with_review_state None Script.capped)).2 = Some FAILED.
Proof. repeat split; vm_compute; congruence. Qed.

(** C9, as stated, fails: a review state built without [max_iterations]
    has the model's default, which is 3. *)
Lemma default_max_iterations_is_not_5 :
  max_iterations (new_ReviewState None None None None) <> 5.
Proof. vm_compute. discriminate. Qed.

Section ReviewerCap.
Context `{Collaborators}.

Lemma reviewer_at_cap (w : World) (st : State) (rs : ReviewState) (cs : CoderState) :
  review_state st = Some rs ->
  Reviewer.review_input st = Some cs ->
  max_iterations rs <= iteration rs + 1 ->
  Reviewer.reviewer_agent w st
  = (w, Reviewer.reviewer_result st cs
          {| reviews := Py.dict_values (Reviewer.partition_reviews (reviews rs)).1;
             iteration := iteration rs + 1;
             max_iterations := max_iterations rs;
             all_passed := true |}
          "review_max_iterations").
Proof.
  intros Hrs Hcs Hcap. unfold Reviewer.reviewer_agent.
  rewrite Hcs, Hrs.
  destruct (Reviewer.partition_reviews (reviews rs)) as [pres todo]. simpl.
  apply Z.leb_le in Hcap. rewrite Hcap. reflexivity.
Qed.

(** C1. If the review state given to the reviewer has
    [iteration >= max_iterations], then one invocation of [reviewer_agent]
    returns a review state with [all_passed] true, whatever the files
    contain: no file is read and the model is not called.  The state is one
    the stage accepts as input, that is, it carries a coder state or a task
    plan, as every state that reaches the reviewer with a review state
    does. *)
Theorem reviewer_cap_forces_all_passed (w : World) (st : State) (rs : ReviewState) :
  review_state st = Some rs ->
  max_iterations rs <= iteration rs ->
  coder_state st <> None \/ task_plan st <> None ->
  exists rs', review_state (Reviewer.reviewer_agent w st).2 = Some rs'
    /\ all_passed rs' = true
    /\ status (Reviewer.reviewer_agent w st).2 = Some "review_max_iterations"
    /\ (Reviewer.reviewer_agent w st).1 = w.
Proof.
  intros Hrs Hcap Hin. destruct (review_input_some st Hin) as [cs Hcs].
  rewrite (reviewer_at_cap w st rs cs Hrs Hcs) by lia.
  eexists. repeat split.
Qed.

(** C9, amended. The cap lives in the review state: [reviewer_agent]
    creates the first review state with [max_iterations = 5], given
    explicitly, and every later one with the cap of the state it received;
    a review state built without [max_iterations] has the default 3. *)
Theorem reviewer_iteration_cap (w : World) (st : State) (rs' : ReviewState) :
  review_state (Reviewer.reviewer_agent w st).2 = Some rs' ->
  max_iterations rs'
  = match review_state st with Some rs => max_iterations rs | None => 5 end
  /\ max_iterations (new_ReviewState None None None None) = 3.
Proof.
  intros Hrs. split; [|reflexivity]. revert Hrs.
  unfold Reviewer.reviewer_agent. 
  destruct (Reviewer.review_input st) as [cs|]; [|discriminate].
  destruct (review_state st) as [existing|].
  - destruct (Reviewer.partition_reviews (reviews existing)) as [pres todo]. simpl.
    destruct (max_iterations existing <=? iteration existing + 1).
    + by intros [= <-].
    + destruct (foldl _ _ _) as [[w' revs] ok]. by intros [= <-].
  - simpl. destruct (foldl _ _ _) as [[w' revs] ok]. by intros [= <-].
Qed.

End ReviewerCap.

Lemma reviewer_cap_forces_all_passed_witness :
  exists rs', review_state (@Reviewer.reviewer_agent Script.plain Script.fresh_world
                              (Script.with_review_state (Some Script.web_task_plan)
                                 Script.capped)).2 = Some rs'
    /\ all_passed rs' = true.
Proof.
  destruct (@reviewer_cap_forces_all_passed Script.plain Script.fresh_world
              (Script.with_review_state (Some Script.web_task_plan) Script.capped)
              Script.capped eq_refl)
    as (rs' & Hrs & Hok & _).
  - vm_compute. discriminate.
  - right. discriminate.
  - exists rs'. split; assumption.
Defined.

Lemma reviewer_iteration_cap_witness :
  exists rs', review_state (@Reviewer.reviewer_agent Script.plain Script.fresh_world
                              (Script.with_task_plan Script.web_task_plan)).2 = Some rs'
    /\ max_iterations rs' = 5.
Proof.
  destruct (review_state (@Reviewer.reviewer_agent Script.plain Script.fresh_world
                            (Script.with_task_plan Script.web_task_plan)).2)
    as [rs'|] eqn:E; [|vm_compute in E; discriminate].
  exists rs'. split; [reflexivity|].
  exact (proj1 (@reviewer_iteration_cap Script.plain Script.fresh_world
                  (Script.with_task_plan Script.web_task_plan) rs' E)).
Defined.

(** ** Coder *)

Section CoderFacts.
Context `{Collaborators}.

Lemma index_in_range {A} (l : list A) (i : Z) :
  0 <= i < Z.of_nat (length l) -> Py.index l i = l !! Z.to_nat i.
Proof.
  intros [H0 H1]. unfold Py.index.
  apply Z.leb_le in H0. apply Z.ltb_lt in H1. by rewrite H0, H1.
Qed.

Lemma generate_disk_reply (task : ImplementationTask) (user : string) (w : World)
    (ws : list (string * string)) (u : unit) :
  react_agent_invoke (llm_calls w) coder_system_prompt user = (ws, Reply u) ->
  Coder.generate task user w
  = (set_disk (tick w) (Coder.apply_writes ws (disk w)), true).
Proof. unfold Coder.generate. by intros ->. Qed.

(** One attempt appends the filepath to exactly one list and leaves the
    rest of the coder state alone. *)
Lemma code_step_appends (cs : CoderState) (task : ImplementationTask) (w : World) :
  let cs' := (Coder.code_step cs task w).2 in
  cs' = Coder.append_completed cs (filepath task)
  \/ cs' = Coder.append_failed cs (filepath task).
Proof.
  unfold Coder.code_step.
  destruct (get_project_context_summary _ _ _); simpl; [|by right].
  destruct (Coder.generate _ _ _) as [w' []]; simpl; [by left|by right].
Qed.

Lemma covers_fresh (tp : TaskPlan) :
  Coder.covers (new_CoderState tp (Some 0) (Some []) (Some [])).
Proof. unfold Coder.covers; simpl. repeat split; (lia || done). Qed.

Lemma covers_advance (cs cs1 : CoderState) (task : ImplementationTask) :
  Coder.covers cs ->
  implementation_steps (cs_task_plan cs) !! Z.to_nat (current_step_idx cs) = Some task ->
  cs1 = Coder.append_completed cs (filepath task)
  \/ cs1 = Coder.append_failed cs (filepath task) ->
  Coder.covers (Coder.advance cs1)
  /\ cs_task_plan (Coder.advance cs1) = cs_task_plan cs.
Proof.
  intros (Hrange & Hlen & Hperm) Hlook Hcs1.
  pose proof (lookup_lt_Some _ _ _ Hlook) as Hlt.
  assert (Htake : filepath <$> take (Z.to_nat (current_step_idx cs + 1))
                                 (implementation_steps (cs_task_plan cs))
                  = ((filepath <$> take (Z.to_nat (current_step_idx cs))
                                    (implementation_steps (cs_task_plan cs)))
                     ++ [filepath task])%list).
  { replace (Z.to_nat (current_step_idx cs + 1))
      with (S (Z.to_nat (current_step_idx cs))) by lia.
    rewrite (take_S_r _ _ _ Hlook), fmap_app. reflexivity. }
  destruct Hcs1 as [-> | ->]; (split; [|reflexivity]); unfold Coder.covers; simpl;
    rewrite Htake, ?length_app; simpl.
  - repeat split; try lia.
    rewrite <- Hperm, <- !app_assoc. apply Permutation_app_head, Permutation_app_comm.
  - repeat split; try lia.
    rewrite <- Hperm, <- !app_assoc. reflexivity.
Qed.

Lemma coder_agent_covers (w w' : World) (st st' : State) (tp : TaskPlan) :
  task_plan st = Some tp ->
  match coder_state st with
  | Some cs => Coder.covers cs /\ cs_task_plan cs = tp
  | None => True
  end ->
  Coder.coder_agent w st = (w', Returns st') ->
  task_plan st' = Some tp
  /\ exists cs', coder_state st' = Some cs' /\ Coder.covers cs' /\ cs_task_plan cs' = tp.
Proof.
  intros Htp Hcs. unfold Coder.coder_agent. rewrite Htp.
  set (cs := match coder_state st with
             | Some cs => cs
             | None => new_CoderState tp (Some 0) (Some []) (Some [])
             end).
  assert (Hcov : Coder.covers cs /\ cs_task_plan cs = tp).
  { unfold cs. destruct (coder_state st); [done|]. split; [apply covers_fresh|done]. }
  destruct Hcov as [Hcov Hplan].
  destruct (Z.of_nat (length (implementation_steps (cs_task_plan cs)))
            <=? current_step_idx cs) eqn:Edone.
  - intros [= <- <-]. simpl. split; [done|]. by exists cs.
  - apply Z.leb_gt in Edone.
    rewrite index_in_range by (destruct Hcov as [? _]; lia).
    destruct (implementation_steps (cs_task_plan cs) !! Z.to_nat (current_step_idx cs))
      as [task|] eqn:Elook; [|discriminate].
    pose proof (code_step_appends cs task w) as Happ.
    destruct (Coder.code_step cs task w) as [w1 cs1]. simpl in Happ.
    destruct (covers_advance cs cs1 task Hcov Elook Happ) as [Hcov' Hplan'].
    destruct (_ <=? current_step_idx (Coder.advance cs1));
      intros [= <- <-]; simpl; (split; [done|]);
      exists (Coder.advance cs1); (split; [done|split; [done|congruence]]).
Qed.

Lemma coder_run_covers (tp : TaskPlan) (w : World) (st : State) :
  Coder.coder_run tp w st ->
  task_plan st = Some tp
  /\ match coder_state st with
     | Some cs => Coder.covers cs /\ cs_task_plan cs = tp
     | None => True
     end.
Proof.
  induction 1 as [w st Htp Hcs | w w' st st' Hrun [IHtp IHcs] Hstep].
  - split; [done|]. by rewrite Hcs.
  - destruct (coder_agent_covers w w' st st' tp IHtp IHcs Hstep)
      as (Htp' & cs' & -> & Hcov & Hplan). done.
Qed.

(** C2, amended. In every coder state produced by any number of
    [coder_agent] invocations that started from a fresh one, the two lists
    together hold [current_step_idx] entries, and they hold exactly the
    filepaths of the steps attempted so far, each attempt in one list only;
    the lists are disjoint as sets when the steps of the task plan have
    pairwise distinct filepaths. *)
Theorem coder_coverage (tp : TaskPlan) (w : World) (st : State) (cs : CoderState) :
  Coder.coder_run tp w st ->
  coder_state st = Some cs ->
  Z.of_nat (length (completed_files cs) + length (failed_files cs)) = current_step_idx cs
  /\ (completed_files cs ++ failed_files cs)%list
     ≡ₚ filepath <$> take (Z.to_nat (current_step_idx cs)) (implementation_steps tp)
  /\ (NoDup (filepath <$> implementation_steps tp) ->
      forall p, p ∈ completed_files cs -> p ∉ failed_files cs).
Proof.
  intros Hrun Hcs. destruct (coder_run_covers tp w st Hrun) as [_ Hinv].
  rewrite Hcs in Hinv. destruct Hinv as [(Hrange & Hlen & Hperm) Hplan].
  rewrite Hplan in Hperm. split; [done|]. split; [done|].
  intros Hnd p Hc Hf.
  assert (Hnd' : NoDup (completed_files cs ++ failed_files cs)).
  { rewrite Hperm. rewrite <- (take_drop (Z.to_nat (current_step_idx cs))
                                (implementation_steps tp)), fmap_app in Hnd.
    by apply NoDup_app in Hnd as [? _]. }
  apply NoDup_app in Hnd' as (_ & Hdisj & _). by apply (Hdisj p).
Qed.

End CoderFacts.

(** C2, as stated, fails: with two tasks for one file, of which the first
    attempt fails in every tier and the second succeeds, the filepath is in
    both lists, which are then not disjoint. *)
Lemma coder_lists_overlap :
  exists w st cs,
    @Coder.coder_run Script.flaky Script.two_pass_plan w st
    /\ coder_state st = Some cs
    /\ completed_files cs = ["index.html"]
    /\ failed_files cs = ["index.html"]
    /\ ~ (forall p, p ∈ completed_files cs -> p ∉ failed_files cs).
Proof.
  eexists _, _, _. split.
  - eapply Coder.run_step.
    + eapply Coder.run_step.
      * apply (Coder.run_start _ Script.fresh_world (Script.with_task_plan Script.two_pass_plan));
          reflexivity.
      * vm_compute. reflexivity.
    + vm_compute. reflexivity.
  - split; [reflexivity|]. split; [reflexivity|]. split; [reflexivity|].
    intros Hd. apply (Hd "index.html"); apply list_elem_of_here.
Qed.

Lemma coder_coverage_witness :
  exists w st cs,
    @Coder.coder_run Script.plain Script.web_task_plan w st
    /\ coder_state st = Some cs
    /\ Z.of_nat (length (completed_files cs) + length (failed_files cs)) = current_step_idx cs
    /\ (forall p, p ∈ completed_files cs -> p ∉ failed_files cs).
Proof.
  assert (Hrun : @Coder.coder_run Script.plain Script.web_task_plan
                   {| disk := ∅; llm_calls := 2 |}
                   (Coder.coder_result (Script.with_task_plan Script.web_task_plan)
                      {| cs_task_plan := Script.web_task_plan; current_step_idx := 1;
                         completed_files := []; failed_files := ["index.html"];
                         current_file_content := None |} "coding")).
  { eapply Coder.run_step.
    - apply (Coder.run_start _ Script.fresh_world (Script.with_task_plan Script.web_task_plan));
        reflexivity.
    - vm_compute. reflexivity. }
  eexists _, _, _. split; [exact Hrun|]. split; [reflexivity|].
  pose proof (@coder_coverage Script.plain _ _ _ _ Hrun eq_refl) as (Hlen & _ & Hdisj).
  split; [exact Hlen|]. apply Hdisj. vm_compute.
  apply NoDup_cons. split; [|apply NoDup_singleton].
  intros Hin. apply list_elem_of_singleton in Hin. discriminate.
Defined.

Section CoderTrust.
Context `{Collaborators}.

(** C10. When the tool-using tier returns without raising, [coder_agent]
    appends the filepath of the current step to [completed_files] and
    advances; it does not look at the tree, which is left exactly as the
    agent's own [write_file] calls made it.  If the agent wrote nothing,
    the file is as absent as it was before. *)
Theorem coder_trusts_primary_tier (w : World) (st : State) (tp : TaskPlan)
    (task : ImplementationTask) (ctx : string) (ws : list (string * string)) (u : unit) :
  let cs := match coder_state st with
            | Some cs => cs
            | None => new_CoderState tp (Some 0) (Some []) (Some [])
            end in
  task_plan st = Some tp ->
  0 <= current_step_idx cs < Z.of_nat (length (implementation_steps (cs_task_plan cs))) ->
  implementation_steps (cs_task_plan cs) !! Z.to_nat (current_step_idx cs) = Some task ->
  get_project_context_summary (disk w) 5 300 = Reply ctx ->
  react_agent_invoke (llm_calls w) coder_system_prompt
    (coder_task_prompt (task_description task) (filepath task)
       (Coder.existing_content task w) ctx) = (ws, Reply u) ->
  exists w' st' cs',
    Coder.coder_agent w st = (w', Returns st')
    /\ coder_state st' = Some cs'
    /\ completed_files cs' = (completed_files cs ++ [filepath task])%list
    /\ failed_files cs' = failed_files cs
    /\ current_step_idx cs' = current_step_idx cs + 1
    /\ disk w' = Coder.apply_writes ws (disk w)
    /\ (ws = [] -> Tools.read_file (filepath task) (disk w')
                   = Tools.read_file (filepath task) (disk w)).
Proof.
  intros cs Htp Hrange Hlook Hctx Hreact.
  unfold Coder.coder_agent. rewrite Htp. fold cs.
  destruct (Z.of_nat (length (implementation_steps (cs_task_plan cs)))
            <=? current_step_idx cs) eqn:E; [apply Z.leb_le in E; lia|].
  rewrite index_in_range, Hlook by lia.
  unfold Coder.code_step. rewrite Hctx.
  rewrite (generate_disk_reply _ _ _ _ _ Hreact).
  cbv zeta.
  destruct (_ <=? current_step_idx (Coder.advance (Coder.append_completed cs (filepath task))));
    (eexists _, _, _; split; [reflexivity|]; simpl; repeat split;
     intros ->; reflexivity).
Qed.

End CoderTrust.

Lemma coder_trusts_primary_tier_witness :
  exists w' st' cs',
    @Coder.coder_agent Script.idle Script.fresh_world
      (Script.with_task_plan Script.web_task_plan) = (w', Returns st')
    /\ coder_state st' = Some cs'
    /\ completed_files cs' = ["index.html"]
    /\ @Tools.read_file Script.idle "index.html" (disk w') = "".
Proof.
  destruct (@coder_trusts_primary_tier Script.idle Script.fresh_world
              (Script.with_task_plan Script.web_task_plan) Script.web_task_plan
              (Script.task "index.html" 1) "No files in project yet." [] tt
              eq_refl)
    as (w' & st' & cs' & Hrun & Hcs & Hdone & _ & _ & _ & Hread).
  - vm_compute. split; [discriminate|reflexivity].
  - reflexivity.
  - reflexivity.
  - reflexivity.
  - exists w', st', cs'. split; [exact Hrun|]. split; [exact Hcs|].
    split; [exact Hdone|]. exact (Hread eq_refl).
Defined.

(** ** Fixer *)

Section FixerFacts.
Context `{Collaborators}.

Lemma empty_fix_true (body : string) :
  body = "" \/ Py.len (Py.strip body) < 10 -> Fixer.empty_fix body = true.
Proof.
  unfold Fixer.empty_fix. intros [-> | Hlt]; [reflexivity|].
  apply Z.ltb_lt in Hlt. rewrite Hlt. apply orb_true_r.
Qed.

(** C6. If the body generated for a candidate is empty, shorter than 10
    characters once stripped, or shorter than 30% of the content the
    candidate was read with, the fix is rejected: the tree is left as it
    was, the file is not counted as fixed, and a failure reason is recorded
    for it. *)
Theorem fixer_rejects_lossy_fix (w : World) (rep : Fixer.FixReport)
    (review : CodeReview) (reply : string) :
  let fp := review_filepath review in
  let content := Tools.read_file fp (disk w) in
  let body := Fixer.fixed_body reply (Py.file_ext fp) in
  let out := Fixer.fix_candidate (w, rep) review in
  llm_invoke (llm_calls w) (fixer_prompt (Py.file_ext fp) fp content (issues review))
    = Reply reply ->
  body = "" \/ Py.len (Py.strip body) < 10 \/ 10 * Py.len body < 3 * Py.len content ->
  disk out.1 = disk w
  /\ Fixer.fixed_files out.2 = Fixer.fixed_files rep
  /\ exists reason,
       (reason = "Empty fix generated" \/ reason = "Fix too short, possible content loss")
       /\ last (Fixer.failed_fixes out.2) = Some (fp, reason).
Proof.
  intros fp content body out Hreply Hbad. subst out.
  unfold Fixer.fix_candidate. fold fp. fold content. rewrite Hreply. fold body.
  set (rep1 := if Py.is_empty content || Py.startswith content "ERROR"
               then Fixer.add_failed rep fp "Cannot read file" else rep).
  assert (Hfixed : Fixer.fixed_files rep1 = Fixer.fixed_files rep).
  { unfold rep1. by destruct (_ || _). }
  destruct (Fixer.empty_fix body) eqn:Eempty.
  - simpl. split; [done|]. split; [done|].
    exists "Empty fix generated". split; [by left|]. apply last_snoc.
  - destruct (Fixer.much_shorter (Py.len body) (Py.len content)) eqn:Eshort.
    + simpl. split; [done|]. split; [done|].
      exists "Fix too short, possible content loss". split; [by right|]. apply last_snoc.
    + exfalso. destruct Hbad as [Hb | [Hb | Hb]].
      * rewrite (empty_fix_true body) in Eempty by (by left). discriminate.
      * rewrite (empty_fix_true body) in Eempty by (by right). discriminate.
      * unfold Fixer.much_shorter in Eshort. apply Z.ltb_ge in Eshort. lia.
Qed.

End FixerFacts.

Lemma fixer_rejects_lossy_fix_witness :
  let out := @Fixer.fix_candidate (Script.answering "let x = 1;")
               (Script.with_script, Fixer.no_report) (Script.failed_review "script.js") in
  10 * Py.len "let x = 1;" < 3 * Py.len Script.script_js
  /\ disk out.1 = disk Script.with_script
  /\ Fixer.failed_fixes out.2 = [("script.js", "Fix too short, possible content loss")].
Proof.
  intros out.
  destruct (@fixer_rejects_lossy_fix (Script.answering "let x = 1;")
              Script.with_script Fixer.no_report (Script.failed_review "script.js")
              "let x = 1;" eq_refl) as (Hdisk & _ & _).
  - right. right. vm_compute. reflexivity.
  - split; [vm_compute; reflexivity|]. split; [exact Hdisk|].
    vm_compute. reflexivity.
Defined.

(** C7: what the code does on a candidate that cannot be read.  The file
    [script.js] is absent, so [read_file] yields no content; the failure
    reason is recorded, and yet the corrective request is built and sent,
    its reply is written to the file, and the file is counted as fixed. *)
Lemma fixer_unreadable_candidate_is_still_fixed :
  let out := @Fixer.fixer_agent
               (Script.answering "document.title = 'fixed page';")
               Script.fresh_world
               (Script.with_review_state (Some Script.web_task_plan) Script.one_missing) in
  @Tools.read_file Script.plain "script.js" (disk Script.fresh_world) = ""
  /\ Fixer.failed_fixes out.2 = [("script.js", "Cannot read file")]
  /\ Fixer.fixed_files out.2 = ["script.js"]
  /\ llm_calls out.1.1 = 1%nat
  /\ disk out.1.1
     = {[ ["srv"; "generated_project"; "script.js"] := "document.title = 'fixed page';" ]}.
Proof. cbv zeta. repeat split; vm_compute; reflexivity. Qed.

(** * Further properties of the stages *)

(** Splits the conjunctions in sight, leaving folded definitions alone. *)
Ltac split_all := repeat match goal with |- _ /\ _ => split end.

(** ** Sorting by key *)

Section SortFacts.
Context {A : Type} (key : A -> Z).

Lemma insert_by_perm (x : A) (l : list A) : Py.insert_by key x l ≡ₚ x :: l.
Proof.
  induction l as [|y l IH]; simpl; [done|].
  destruct (key x <? key y); [done|].
  rewrite IH. apply Permutation_swap.
Qed.

Lemma sort_by_acc_perm (l acc : list A) :
  foldl (fun acc x => Py.insert_by key x acc) acc l ≡ₚ (acc ++ l)%list.
Proof.
  revert acc. induction l as [|x l IH]; intros acc; simpl.
  - by rewrite app_nil_r.
  - rewrite IH, insert_by_perm. simpl. apply Permutation_middle.
Qed.

Lemma sort_by_perm (l : list A) : Py.sort_by key l ≡ₚ l.
Proof. unfold Py.sort_by. by rewrite sort_by_acc_perm. Qed.

Lemma insert_by_sorted (x : A) (l : list A) :
  StronglySorted (fun a b => key a <= key b) l ->
  StronglySorted (fun a b => key a <= key b) (Py.insert_by key x l).
Proof.
  induction 1 as [|y l Hl IH Hy]; simpl.
  - repeat constructor.
  - destruct (key x <? key y) eqn:E.
    + apply Z.ltb_lt in E. constructor; [by constructor|].
      constructor; [lia|]. eapply Forall_impl; [exact Hy|]. simpl. intros; lia.
    + apply Z.ltb_ge in E. constructor; [done|].
      rewrite insert_by_perm. by constructor.
Qed.

Lemma sort_by_sorted (l : list A) :
  StronglySorted (fun a b => key a <= key b) (Py.sort_by key l).
Proof.
  unfold Py.sort_by.
  assert (G : forall acc, StronglySorted (fun a b => key a <= key b) acc ->
              StronglySorted (fun a b => key a <= key b)
                (foldl (fun acc x => Py.insert_by key x acc) acc l)).
  { induction l as [|x l IH]; intros acc Hacc; simpl; [done|].
    apply IH. by apply insert_by_sorted. }
  apply G. constructor.
Qed.

End SortFacts.

(** ** Architect *)

Section ArchitectMore.

(** X1. Whatever the plan, the steps of the fallback task plan are in
    ascending order of priority: every step has a priority at most that of
    every later step. *)
Theorem fallback_steps_by_priority (pl : Plan) :
  by_priority (implementation_steps (Architect.create_fallback_task_plan pl)).
Proof. apply sort_by_sorted. Qed.

Lemma imap_fallback_lookup (pl : Plan) (fs : list File) (t : ImplementationTask) :
  t ∈ imap (Architect.fallback_step pl) fs ->
  exists i f, fs !! i = Some f /\ t = Architect.fallback_step pl i f.
Proof.
  intros Hin. apply list_elem_of_lookup in Hin as [i Hi].
  rewrite list_lookup_imap in Hi.
  destruct (fs !! i) as [f|] eqn:Ef; simpl in Hi; [|discriminate].
  injection Hi as <-. eauto.
Qed.

Lemma imap_filepath (F : nat -> File -> ImplementationTask) (fs : list File) :
  (forall i f, filepath (F i f) = path f) -> filepath <$> imap F fs = path <$> fs.
Proof.
  revert F. induction fs as [|f fs IH]; intros F HF; simpl; [done|].
  rewrite HF. f_equal. apply IH. intros i g. apply HF.
Qed.

(** X2. The fallback task plan has exactly one step per file of the plan:
    the filepaths of its steps are the paths of the files, up to order, and
    each step depends on precisely the files declared before its own and
    exports nothing. *)
Theorem fallback_one_step_per_file (pl : Plan) :
  let steps := implementation_steps (Architect.create_fallback_task_plan pl) in
  filepath <$> steps ≡ₚ path <$> files pl
  /\ length steps = length (files pl)
  /\ forall t, t ∈ steps ->
       exists i f, files pl !! i = Some f
         /\ filepath t = path f
         /\ dependencies t = path <$> take i (files pl)
         /\ expected_exports t = [].
Proof.
  intros steps.
  assert (Hp : steps ≡ₚ imap (Architect.fallback_step pl) (files pl))
    by apply sort_by_perm.
  split; [|split].
  - rewrite Hp. apply reflexive_eq, imap_filepath. reflexivity.
  - by rewrite Hp, length_imap.
  - intros t Ht. rewrite Hp in Ht.
    apply imap_fallback_lookup in Ht as (i & f & Hf & ->). by exists i, f.
Qed.

End ArchitectMore.

Section ArchitectAgentFacts.
Context `{Planning}.

Lemma adopt_by_priority (pl : Plan) (tp : TaskPlan) :
  by_priority (implementation_steps (ArchitectAgent.adopt pl tp)).
Proof. apply sort_by_sorted. Qed.

(** X3. The architect fails only when no plan is supplied.  With a plan it
    always returns a task plan, whichever tier produced it: the plan is
    attached to it, its steps are in ascending order of priority, and the
    status is [architected]. *)
Theorem architect_agent_outcome (st : State) :
  match plan st with
  | None =>
      current_phase (ArchitectAgent.architect_agent st) = Some FAILED
      /\ task_plan (ArchitectAgent.architect_agent st) = None
      /\ errors (ArchitectAgent.architect_agent st) = Some ["No plan provided to architect"]
  | Some pl =>
      exists tp,
        task_plan (ArchitectAgent.architect_agent st) = Some tp
        /\ tp_plan tp = Some pl
        /\ by_priority (implementation_steps tp)
        /\ plan (ArchitectAgent.architect_agent st) = Some pl
        /\ status (ArchitectAgent.architect_agent st) = Some "architected"
  end.
Proof.
  unfold ArchitectAgent.architect_agent.
  destruct (plan st) as [pl|]; [|done].
  destruct (ArchitectAgent.generated_task_plan pl) as [tp|] eqn:Eg; simpl.
  - exists tp. repeat split.
    + revert Eg. unfold ArchitectAgent.generated_task_plan.
      destruct (llm_structured_task_plan _) as [[r|]|e]; try discriminate.
      * by intros [= <-].
      * destruct (Py.contains _ _); [|discriminate].
        destruct (parse_failed_generation e); [|discriminate]. by intros [= <-].
    + revert Eg. unfold ArchitectAgent.generated_task_plan.
      destruct (llm_structured_task_plan _) as [[r|]|e]; try discriminate.
      * intros [= <-]. apply adopt_by_priority.
      * destruct (Py.contains _ _); [|discriminate].
        destruct (parse_failed_generation e); [|discriminate].
        intros [= <-]. apply adopt_by_priority.
  - eexists. repeat split. apply sort_by_sorted.
Qed.

End ArchitectAgentFacts.

(** ** File tools *)

Section ToolsMore.
Context `{Collaborators}.

Lemma resolve_from_plain (base cs : list string) :
  ".." ∉ cs -> Tools.resolve_from base cs = (base ++ cs)%list.
Proof.
  revert base. induction cs as [|c cs IH]; intros base Hno; simpl.
  - by rewrite app_nil_r.
  - destruct (String.eqb c "..") eqn:E.
    + apply String.eqb_eq in E. subst. exfalso. apply Hno, list_elem_of_here.
    + rewrite IH, <- app_assoc; [done|]. intros Hin. by apply Hno, list_elem_of_further.
Qed.

Lemma within_app (root cs : list string) : Tools.within root (root ++ cs) = true.
Proof. unfold Tools.within. apply bool_decide_eq_true. by exists cs. Qed.

Lemma universal_newlines_plain (s : string) :
  has_char Py.CR s = false -> Py.universal_newlines s = s.
Proof.
  induction s as [|c s IH]; [done|]. cbn [has_char Py.universal_newlines].
  intros Hs. apply orb_false_iff in Hs as [Hc Hs]. by rewrite Hc, (IH Hs).
Qed.

(** X4. Writing a file and reading it back gives the content written with
    every CR LF and every lone CR turned into LF, hence the content itself
    when it holds no CR, provided the path is accepted and the host refuses
    neither operation; the write reports SUCCESS and changes no other entry
    of the tree. *)
Theorem write_then_read (p content : string) (d : gmap (list string) string)
    (r : list string) :
  Tools.safe_path_for_project p = inl r ->
  os_write_error d r = None ->
  os_read_error (<[r := content]> d) r = None ->
  Py.startswith (Tools.write_file p content d).2 "SUCCESS" = true
  /\ Tools.read_file p (Tools.write_file p content d).1
     = Py.universal_newlines content
  /\ (has_char Py.CR content = false ->
      Tools.read_file p (Tools.write_file p content d).1 = content)
  /\ forall k, k <> r -> (Tools.write_file p content d).1 !! k = d !! k.
Proof.
  intros Hp Hw Hr. unfold Tools.write_file, Tools.read_file. rewrite Hp, Hw. simpl.
  rewrite Hr, lookup_insert_eq. simpl. split_all; [done|done| |].
  - apply universal_newlines_plain.
  - intros k Hk. by apply lookup_insert_ne.
Qed.

(** X5. A relative path that holds a NUL character is rejected.  One that
    holds none, and none of whose components is [..], is never rejected: it
    resolves to the project root followed by its components. *)
Theorem relative_path_accepted (p : string) :
  Tools.is_absolute p = false ->
  (Py.contains Py.nul p = true ->
   exists e, Tools.safe_path_for_project p = inr e)
  /\ (Py.contains Py.nul p = false ->
      ".." ∉ Tools.parts p ->
      Tools.safe_path_for_project p = inl (PROJECT_ROOT ++ Tools.parts p)%list).
Proof.
  intros Hrel. unfold Tools.safe_path_for_project. rewrite Hrel. split.
  - intros ->. by eexists.
  - intros -> Hno. rewrite resolve_from_plain by done. by rewrite within_app.
Qed.

Lemma split_pieces_free (sep : ascii) (s c : string) :
  c ∈ Py.split sep s -> has_char sep c = false.
Proof.
  revert c. induction s as [|a s IH]; intros c; simpl.
  - intros Hc. apply list_elem_of_singleton in Hc. by subst.
  - destruct (Ascii.eqb a sep) eqn:E.
    + intros Hc. apply elem_of_cons in Hc as [->|Hc]; [done|by apply IH].
    + destruct (Py.split sep s) as [|h t] eqn:Es.
      * intros Hc. apply list_elem_of_singleton in Hc. subst. simpl. by rewrite E.
      * intros Hc. apply elem_of_cons in Hc as [->|Hc].
        -- simpl. rewrite E. apply IH, list_elem_of_here.
        -- by apply IH, list_elem_of_further.
Qed.

Lemma split_free (sep : ascii) (s : string) :
  has_char sep s = false -> Py.split sep s = [s].
Proof.
  induction s as [|a s IH]; simpl; [done|].
  intros Hs. apply orb_false_iff in Hs as [Ha Hs]. by rewrite Ha, (IH Hs).
Qed.

Lemma last_elem {A} (l : list A) (d : A) : l <> [] -> List.last l d ∈ l.
Proof.
  induction l as [|x l IH]; [done|]. intros _.
  destruct l as [|y l]; [apply list_elem_of_here|].
  apply list_elem_of_further, IH. discriminate.
Qed.

Lemma parts_of_component (p c : string) :
  c ∈ Tools.parts p -> Tools.parts c = [c].
Proof.
  unfold Tools.parts. intros Hc.
  apply list_elem_of_In, filter_In in Hc as [Hin Hkeep].
  apply list_elem_of_In, split_pieces_free in Hin.
  rewrite (split_free _ _ Hin). simpl. by rewrite Hkeep.
Qed.

(** X6. An absolute path is reduced to its final component before it is
    resolved.  If that component holds a NUL character the path is rejected;
    otherwise, unless the component is [..], the path is accepted and
    denotes the entry of that name directly in the project root (the root
    itself when the path has no component), whatever directories it named. *)
Theorem absolute_path_final_component (p : string) :
  Tools.is_absolute p = true ->
  Tools.path_name p <> ".." ->
  (Py.contains Py.nul (Tools.path_name p) = true ->
   exists e, Tools.safe_path_for_project p = inr e)
  /\ (Py.contains Py.nul (Tools.path_name p) = false ->
      Tools.safe_path_for_project p
      = inl (PROJECT_ROOT ++ (if Py.is_empty (Tools.path_name p) then []
                              else [Tools.path_name p]))%list).
Proof.
  intros Habs Hname. unfold Tools.safe_path_for_project. rewrite Habs.
  split; [intros ->; by eexists|]. intros Hnul. rewrite Hnul. clear Hnul.
  unfold Tools.path_name in *.
  destruct (Tools.parts p) as [|c cs] eqn:Ep.
  - simpl. pose proof (within_app PROJECT_ROOT []) as Hw.
    rewrite app_nil_r in *. by rewrite Hw.
  - assert (Hin : List.last (c :: cs) "" ∈ Tools.parts p).
    { rewrite Ep. by apply last_elem. }
    set (nm := List.last (c :: cs) "") in *.
    rewrite (parts_of_component p nm Hin).
    assert (Hne : Py.is_empty nm = false).
    { unfold Tools.parts in Hin. apply list_elem_of_In, filter_In in Hin as [_ Hk].
      unfold Tools.keep_component in Hk. destruct nm; [discriminate|done]. }
    rewrite Hne, resolve_from_plain, within_app; [done|].
    intros Hd. apply list_elem_of_singleton in Hd. congruence.
Qed.

End ToolsMore.

Lemma write_then_read_witness :
  @Tools.read_file Script.plain "css/style.css"
    (@Tools.write_file Script.plain "css/style.css"
       ("body {}" +:+ String Py.CR (String Py.LF "p {}")) ∅).1
  = "body {}" +:+ String Py.LF "p {}".
Proof.
  refine (proj1 (proj2 (@write_then_read Script.plain "css/style.css"
                          ("body {}" +:+ String Py.CR (String Py.LF "p {}")) ∅
                          ["srv"; "generated_project"; "css"; "style.css"] _ _ _)));
    reflexivity.
Defined.

Lemma relative_path_accepted_witness :
  @Tools.safe_path_for_project Script.plain "./css//style.css"
  = inl ["srv"; "generated_project"; "css"; "style.css"].
Proof.
  refine (proj2 (@relative_path_accepted Script.plain "./css//style.css" _) _ _).
  - reflexivity.
  - reflexivity.
  - vm_compute. intros Hin. apply elem_of_cons in Hin as [Hin|Hin]; [discriminate|].
    apply list_elem_of_singleton in Hin. discriminate.
Defined.

Lemma absolute_path_final_component_witness :
  @Tools.safe_path_for_project Script.plain "/var/www/../index.html"
  = inl ["srv"; "generated_project"; "index.html"].
Proof.
  refine (proj2 (@absolute_path_final_component Script.plain
                   "/var/www/../index.html" _ _) _).
  - reflexivity.
  - vm_compute. discriminate.
  - reflexivity.
Defined.

(** ** Routing *)

Section RoutingMore.

Lemma route_after_coder_cases (st : State) :
  Graph.route_after_coder st = "coder" \/ Graph.route_after_coder st = "reviewer".
Proof.
  unfold Graph.route_after_coder.
  destruct (coder_state st) as [cs|]; [|by right].
  destruct (_ <=? _); [by right|by left].
Qed.

Lemma successor_coder (st : State) :
  Graph.successor Graph.coder st =
    if String.eqb (Graph.route_after_coder st) "coder"
    then Some Graph.coder else Some Graph.reviewer.
Proof.
  destruct (route_after_coder_cases st) as [E|E]; simpl; rewrite E; reflexivity.
Qed.

(** X7. Every node of the graph except [END] has a successor in every
    state: the answer of each router is a key of the table of its
    conditional edge. *)
Theorem successor_defined (n : Graph.Node) (st : State) :
  Graph.successor n st = None <-> n = Graph.END.
Proof.
  split; [|by intros ->].
  destruct n; try discriminate; try done.
  - rewrite successor_coder. by destruct (String.eqb _ _).
  - rewrite successor_reviewer. by destruct (String.eqb _ _).
Qed.

(** X8. After the coder the graph re-enters the coder exactly when the
    state holds a coder state with steps left; otherwise, also when the state
    holds no coder state, it moves on to the reviewer. *)
Theorem route_after_coder_spec (st : State) :
  (Graph.successor Graph.coder st = Some Graph.coder <->
     exists cs, coder_state st = Some cs
       /\ current_step_idx cs
          < Z.of_nat (length (implementation_steps (cs_task_plan cs))))
  /\ (Graph.successor Graph.coder st <> Some Graph.coder <->
        Graph.successor Graph.coder st = Some Graph.reviewer).
Proof.
  rewrite successor_coder. unfold Graph.route_after_coder.
  destruct (coder_state st) as [cs|]; simpl.
  - destruct (_ <=? _) eqn:E; simpl.
    + apply Z.leb_le in E. repeat split; try done.
      intros (cs' & [= <-] & Hlt). lia.
    + apply Z.leb_gt in E. repeat split; try done. intros _. by exists cs.
  - repeat split; try done. by intros (cs' & [=] & _).
Qed.

End RoutingMore.

(** ** Coder: the loop *)

Section CoderMore.
Context `{Collaborators}.

Lemma apply_writes_outside (ws : list (string * string))
    (d : gmap (list string) string) (k : list string) :
  ¬ PROJECT_ROOT `prefix_of` k -> Coder.apply_writes ws d !! k = d !! k.
Proof.
  intros Hk. unfold Coder.apply_writes. revert d.
  induction ws as [|[p c] ws IH]; intros d; simpl; [done|].
  rewrite IH. by apply write_file_outside.
Qed.

Lemma extract_tool_call_effect (e : string) (w : World) (k : list string) :
  llm_calls (Coder.extract_and_execute_tool_call e w).1 = llm_calls w
  /\ (¬ PROJECT_ROOT `prefix_of` k ->
      disk (Coder.extract_and_execute_tool_call e w).1 !! k = disk w !! k).
Proof.
  unfold Coder.extract_and_execute_tool_call.
  destruct (decode_write_file_call e) as [[p c]|]; [|done].
  destruct (_ && _); [|done].
  pose proof (write_file_outside p c (disk w) k) as Ho.
  destruct (Tools.write_file p c (disk w)) as [d r]. simpl in *. done.
Qed.

Lemma direct_generation_effect (task : ImplementationTask) (w : World) (k : list string) :
  llm_calls (Coder.direct_generation task w).1 = S (llm_calls w)
  /\ (¬ PROJECT_ROOT `prefix_of` k ->
      disk (Coder.direct_generation task w).1 !! k = disk w !! k).
Proof.
  unfold Coder.direct_generation.
  destruct (llm_invoke _ _) as [reply|e]; [|done].
  destruct (Py.is_empty _); [done|].
  pose proof (write_file_outside (filepath task) (Coder.fallback_body reply) (disk w) k) as Ho.
  simpl. destruct (Tools.write_file _ _ (disk w)) as [d r]. simpl in *. done.
Qed.

(** What one run of the three tiers may do: one or two requests (the run of
    the tool-using agent, then at most one direct generation), and no change
    outside the project root. *)
Lemma generate_effect (task : ImplementationTask) (user : string) (w : World)
    (k : list string) :
  (llm_calls w < llm_calls (Coder.generate task user w).1 <= llm_calls w + 2)%nat
  /\ (¬ PROJECT_ROOT `prefix_of` k ->
      disk (Coder.generate task user w).1 !! k = disk w !! k).
Proof.
  unfold Coder.generate.
  destruct (react_agent_invoke _ _ _) as [ws res].
  set (w1 := set_disk (tick w) (Coder.apply_writes ws (disk (tick w)))).
  assert (H1 : llm_calls w1 = S (llm_calls w)) by reflexivity.
  assert (D1 : ¬ PROJECT_ROOT `prefix_of` k -> disk w1 !! k = disk w !! k).
  { intros Hk. unfold w1. simpl. by apply apply_writes_outside. }
  destruct res as [u|e]; [simpl; split; [lia|done]|].
  set (r := if Py.contains "failed_generation" e
            then Coder.extract_and_execute_tool_call e w1 else (w1, false)).
  assert (Hr : llm_calls r.1 = S (llm_calls w)
               /\ (¬ PROJECT_ROOT `prefix_of` k -> disk r.1 !! k = disk w !! k)).
  { unfold r. destruct (Py.contains _ _); [|done].
    destruct (extract_tool_call_effect e w1 k) as [Hc Hd].
    split; [congruence|]. intros Hk. rewrite Hd by done. by apply D1. }
  destruct r as [w2 written]. simpl in Hr. destruct Hr as [Hc2 Hd2].
  destruct written; [simpl; split; [lia|done]|].
  destruct (direct_generation_effect task w2 k) as [Hc3 Hd3].
  split; [lia|]. intros Hk. rewrite Hd3 by done. by apply Hd2.
Qed.

Lemma code_step_effect (cs : CoderState) (task : ImplementationTask) (w : World)
    (k : list string) :
  (llm_calls w <= llm_calls (Coder.code_step cs task w).1 <= llm_calls w + 2)%nat
  /\ (¬ PROJECT_ROOT `prefix_of` k ->
      disk (Coder.code_step cs task w).1 !! k = disk w !! k).
Proof.
  unfold Coder.code_step.
  destruct (get_project_context_summary _ _ _) as [ctx|e]; [|simpl; split; [lia|done]].
  match goal with
  | |- context [Coder.generate ?t ?u ?w0] =>
      pose proof (generate_effect t u w0 k) as [Hc Hd];
      destruct (Coder.generate t u w0) as [w' written]
  end.
  simpl in *. split; [lia|done].
Qed.

(** X9. The coder changes nothing outside the project root, whatever the
    model answers and whatever files the tool-using agent writes. *)
Theorem coder_agent_confined (w : World) (st : State) (k : list string) :
  ¬ PROJECT_ROOT `prefix_of` k ->
  disk (Coder.coder_agent w st).1 !! k = disk w !! k.
Proof.
  intros Hk. unfold Coder.coder_agent.
  destruct (task_plan st) as [tp|]; [|done].
  set (cs := match coder_state st with
             | Some cs => cs
             | None => new_CoderState tp (Some 0) (Some []) (Some [])
             end).
  destruct (_ <=? current_step_idx cs); [done|].
  destruct (Py.index _ _) as [task|]; [|done].
  destruct (code_step_effect cs task w k) as [Hc Hd].
  destruct (Coder.code_step cs task w) as [w' cs']. simpl in *.
  destruct (_ <=? _); simpl; by apply Hd.
Qed.

Lemma coder_agent_progress (w : World) (st : State) (tp : TaskPlan) :
  task_plan st = Some tp ->
  Coder.covers (working_state tp st) ->
  cs_task_plan (working_state tp st) = tp ->
  exists w' st' cs',
    Coder.coder_agent w st = (w', Returns st')
    /\ task_plan st' = Some tp
    /\ coder_state st' = Some cs'
    /\ Coder.covers cs' /\ cs_task_plan cs' = tp
    /\ steps_left tp st' = Nat.pred (steps_left tp st)
    /\ (llm_calls w' <= llm_calls w + 2 * (steps_left tp st - steps_left tp st'))%nat
    /\ status st' = Some (if (steps_left tp st' =? 0)%nat then "coded" else "coding").
Proof.
  intros Htp Hcov Hplan. unfold Coder.coder_agent. rewrite Htp.
  fold (working_state tp st). set (cs := working_state tp st) in *.
  assert (Hleft : steps_left tp st
                  = Z.to_nat (Z.of_nat (length (implementation_steps tp))
                              - current_step_idx cs)) by reflexivity.
  pose proof Hcov as (Hrange & _ & _). rewrite Hplan in *.
  destruct (Z.of_nat (length (implementation_steps tp)) <=? current_step_idx cs) eqn:Edone.
  - apply Z.leb_le in Edone.
    exists w, (Coder.coder_result st cs "coded"), cs.
    assert (Hz : steps_left tp (Coder.coder_result st cs "coded") = 0%nat).
    { unfold steps_left, working_state. simpl. lia. }
    rewrite Hz. split_all; try done; rewrite ?Hleft; lia.
  - apply Z.leb_gt in Edone.
    rewrite index_in_range by lia.
    destruct (implementation_steps tp !! Z.to_nat (current_step_idx cs))
      as [task|] eqn:Elook;
      [|apply lookup_ge_None in Elook; lia].
    pose proof (code_step_appends cs task w) as Happ.
    destruct (code_step_effect cs task w []) as [Hcalls _].
    destruct (Coder.code_step cs task w) as [w1 cs1]. simpl in Happ, Hcalls.
    assert (Hlook' : implementation_steps (cs_task_plan cs)
                       !! Z.to_nat (current_step_idx cs) = Some task)
      by (by rewrite Hplan).
    destruct (covers_advance cs cs1 task Hcov Hlook' Happ) as [Hcov' Hplan'].
    assert (Hidx : current_step_idx (Coder.advance cs1) = current_step_idx cs + 1).
    { destruct Happ as [-> | ->]; reflexivity. }
    set (st1 := fun s => Coder.coder_result st (Coder.advance cs1) s).
    assert (Hl1 : forall s, steps_left tp (st1 s) = Nat.pred (steps_left tp st)).
    { intros s. unfold steps_left at 1. unfold working_state, st1, Coder.coder_result.
      cbn [coder_state]. rewrite Hidx, Hleft. lia. }
    destruct (Z.of_nat (length (implementation_steps tp))
              <=? current_step_idx (Coder.advance cs1)) eqn:E1.
    + apply Z.leb_le in E1.
      exists w1, (st1 "coded"), (Coder.advance cs1). rewrite Hl1.
      assert (Hz : Nat.pred (steps_left tp st) = 0%nat) by (rewrite Hleft; lia).
      rewrite Hz. split_all; try done; try congruence; rewrite Hleft; lia.
    + apply Z.leb_gt in E1.
      exists w1, (st1 "coding"), (Coder.advance cs1). rewrite Hl1.
      assert (Hz : (Nat.pred (steps_left tp st) =? 0)%nat = false)
        by (apply Nat.eqb_neq; rewrite Hleft; lia).
      rewrite Hz. split_all; try done; try congruence; rewrite Hleft; lia.
Qed.

Lemma route_by_steps_left (tp : TaskPlan) (st : State) (cs : CoderState) :
  coder_state st = Some cs -> cs_task_plan cs = tp ->
  String.eqb (Graph.route_after_coder st) "coder" = negb (steps_left tp st =? 0)%nat.
Proof.
  intros Hcs Hplan. unfold Graph.route_after_coder, steps_left, working_state.
  rewrite Hcs, Hplan.
  destruct (_ <=? _) eqn:E.
  - apply Z.leb_le in E. simpl. symmetry. apply negb_false_iff, Nat.eqb_eq. lia.
  - apply Z.leb_gt in E. simpl. symmetry. apply negb_true_iff, Nat.eqb_neq. lia.
Qed.

Lemma coder_loop_runs (tp : TaskPlan) (fuel : nat) :
  forall (w : World) (st : State),
    task_plan st = Some tp ->
    Coder.covers (working_state tp st) ->
    cs_task_plan (working_state tp st) = tp ->
    (steps_left tp st <= S fuel)%nat ->
    exists w' st' cs',
      Loops.coder_loop fuel w st = Some (w', st')
      /\ coder_state st' = Some cs'
      /\ Coder.covers cs' /\ cs_task_plan cs' = tp
      /\ steps_left tp st' = 0%nat
      /\ status st' = Some "coded"
      /\ (llm_calls w' <= llm_calls w + 2 * steps_left tp st)%nat.
Proof.
  induction fuel as [|fuel IH]; intros w st Htp Hcov Hplan Hfuel;
    destruct (coder_agent_progress w st tp Htp Hcov Hplan)
      as (w1 & st1 & cs1 & Hrun & Htp1 & Hcs1 & Hcov1 & Hplan1 & Hleft1 & Hcalls & Hstatus);
    simpl; rewrite Hrun, (route_by_steps_left tp st1 cs1 Hcs1 Hplan1).
  - assert (Hz : steps_left tp st1 = 0%nat) by lia.
    rewrite Hz in *. simpl. exists w1, st1, cs1. split_all; try done; lia.
  - destruct (steps_left tp st1 =? 0)%nat eqn:Ez; simpl.
    + apply Nat.eqb_eq in Ez. exists w1, st1, cs1. split_all; try done; lia.
    + assert (Hws : working_state tp st1 = cs1)
        by (unfold working_state; by rewrite Hcs1).
      destruct (IH w1 st1 Htp1) as (w' & st' & cs' & Hloop & ? & ? & ? & ? & ? & Hc');
        [by rewrite Hws|by rewrite Hws|lia|].
      exists w', st', cs'. split_all; try done; lia.
Qed.

(** X10. The coder loop ends.  From a state with a task plan and no coder
    state, the graph re-enters the coder at most once per step: the loop
    leaves for the reviewer with status [coded], every step attempted and
    each filepath in one of the two lists. *)
Theorem coder_loop_completes (w : World) (st : State) (tp : TaskPlan) (fuel : nat) :
  task_plan st = Some tp ->
  coder_state st = None ->
  (length (implementation_steps tp) <= S fuel)%nat ->
  exists w' st' cs,
    Loops.coder_loop fuel w st = Some (w', st')
    /\ Graph.successor Graph.coder st' = Some Graph.reviewer
    /\ status st' = Some "coded"
    /\ coder_state st' = Some cs
    /\ current_step_idx cs = Z.of_nat (length (implementation_steps tp))
    /\ (completed_files cs ++ failed_files cs)%list ≡ₚ filepath <$> implementation_steps tp.
Proof.
  intros Htp Hcs Hfuel.
  assert (Hws : working_state tp st = new_CoderState tp (Some 0) (Some []) (Some []))
    by (unfold working_state; by rewrite Hcs).
  assert (Hleft : steps_left tp st = length (implementation_steps tp)).
  { unfold steps_left. rewrite Hws. simpl. lia. }
  destruct (coder_loop_runs tp fuel w st Htp) as
    (w' & st' & cs & Hloop & Hcs' & Hcov & Hplan & Hz & Hstatus & Hcalls).
  - rewrite Hws. apply covers_fresh.
  - by rewrite Hws.
  - lia.
  - exists w', st', cs.
    assert (Hidx : current_step_idx cs = Z.of_nat (length (implementation_steps tp))).
    { destruct Hcov as (Hrange & _ & _). rewrite Hplan in Hrange.
      unfold steps_left, working_state in Hz. rewrite Hcs' in Hz. lia. }
    split_all; try done.
    + rewrite successor_coder, (route_by_steps_left tp st' cs Hcs' Hplan), Hz. done.
    + destruct Hcov as (_ & _ & Hperm). rewrite Hplan, Hidx in Hperm.
      rewrite Hperm, Nat2Z.id, firstn_all. done.
Qed.

End CoderMore.

Lemma coder_agent_confined_witness :
  disk (@Coder.coder_agent Script.idle Script.fresh_world
          (Script.with_task_plan Script.web_task_plan)).1 !! ["etc"; "passwd"] = None.
Proof.
  refine (@coder_agent_confined Script.idle Script.fresh_world
            (Script.with_task_plan Script.web_task_plan) ["etc"; "passwd"] _).
  vm_compute. intros [l Hl]. discriminate.
Defined.

Lemma coder_loop_completes_witness :
  exists w' st' cs,
    @Loops.coder_loop Script.flaky 1 Script.fresh_world
      (Script.with_task_plan Script.web_task_plan) = Some (w', st')
    /\ coder_state st' = Some cs
    /\ current_step_idx cs = 2.
Proof.
  destruct (@coder_loop_completes Script.flaky Script.fresh_world
              (Script.with_task_plan Script.web_task_plan) Script.web_task_plan 1
              eq_refl eq_refl)
    as (w' & st' & cs & Hloop & _ & _ & Hcs & Hidx & _).
  - simpl. lia.
  - exists w', st', cs. repeat split; assumption.
Defined.

(** ** Reviewer: what a pass does and does not do *)

Section ReviewerMore.
Context `{Collaborators}.

Lemma review_file_effect (step : ImplementationTask) (content : string) (w : World) :
  disk (Reviewer.review_file step content w).1 = disk w
  /\ (llm_calls w < llm_calls (Reviewer.review_file step content w).1 <= llm_calls w + 2)%nat.
Proof.
  unfold Reviewer.review_file.
  destruct (match llm_structured_review _ _ with Reply r => r | Raise _ => _ end);
    [simpl; split; [done|lia]|].
  destruct (llm_invoke _ _); simpl; (split; [done|lia]).
Qed.

Lemma review_step_effect (preserved : list (string * CodeReview)) (todo : gset string)
    (acc : World * list CodeReview * bool) (step : ImplementationTask) :
  disk (Reviewer.review_step preserved todo acc step).1.1 = disk acc.1.1
  /\ (llm_calls acc.1.1 <= llm_calls (Reviewer.review_step preserved todo acc step).1.1
      <= llm_calls acc.1.1 + 2)%nat.
Proof.
  destruct acc as [[w revs] ok]. unfold Reviewer.review_step. simpl.
  destruct (Py.dict_get _ _); [simpl; split; [done|lia]|].
  case_bool_decide; [|simpl; split; [done|lia]].
  destruct (Reviewer.unreadable _); [simpl; split; [done|lia]|].
  destruct (review_file_effect step (Tools.read_file (filepath step) (disk w)) w) as [Hd Hc].
  destruct (Reviewer.review_file _ _ _) as [w' r]. simpl in *. split; [done|lia].
Qed.

Lemma review_loop_effect (preserved : list (string * CodeReview)) (todo : gset string)
    (steps : list ImplementationTask) (acc : World * list CodeReview * bool) :
  disk (foldl (Reviewer.review_step preserved todo) acc steps).1.1 = disk acc.1.1
  /\ (llm_calls acc.1.1
      <= llm_calls (foldl (Reviewer.review_step preserved todo) acc steps).1.1
      <= llm_calls acc.1.1 + 2 * length steps)%nat.
Proof.
  revert acc. induction steps as [|s steps IH]; intros acc; simpl; [split; [done|lia]|].
  destruct (IH (Reviewer.review_step preserved todo acc s)) as [Hd Hc].
  destruct (review_step_effect preserved todo acc s) as [Hd1 Hc1].
  split; [congruence|lia].
Qed.

(** X11. The reviewer never modifies the project tree, and a pass spends at
    most two model calls per step of the task plan; at the cap, or without a
    coder state or task plan, it spends none. *)
Theorem reviewer_agent_read_only (w : World) (st : State) :
  disk (Reviewer.reviewer_agent w st).1 = disk w
  /\ (llm_calls w <= llm_calls (Reviewer.reviewer_agent w st).1
      <= llm_calls w
         + 2 * match Reviewer.review_input st with
               | Some cs => length (implementation_steps (cs_task_plan cs))
               | None => 0
               end)%nat.
Proof.
  unfold Reviewer.reviewer_agent.
  destruct (Reviewer.review_input st) as [cs|]; [|simpl; split; [done|lia]].
  destruct (review_state st) as [existing|].
  - destruct (Reviewer.partition_reviews (reviews existing)) as [pres todo]. simpl.
    destruct (_ <=? _); [simpl; split; [done|lia]|].
    destruct (review_loop_effect pres todo (implementation_steps (cs_task_plan cs))
                (w, [], true)) as [Hd Hc].
    destruct (foldl _ _ _) as [[w' revs] ok]. simpl in *. split; [done|lia].
  - simpl.
    match goal with
    | |- context [foldl (Reviewer.review_step ?p ?t) ?a ?l] =>
        destruct (review_loop_effect p t l a) as [Hd Hc];
        destruct (foldl (Reviewer.review_step p t) a l) as [[w' revs] ok]
    end.
    simpl in *. split; [done|lia].
Qed.

Lemma forallb_snoc {A} (f : A -> bool) (l : list A) (x : A) :
  forallb f (l ++ [x]) = forallb f l && f x.
Proof. rewrite forallb_app. simpl. by rewrite andb_true_r. Qed.

Lemma review_loop_flag (preserved : list (string * CodeReview)) (todo : gset string)
    (steps : list ImplementationTask) (acc : World * list CodeReview * bool) :
  Forall (fun r => passed r = true) (Py.dict_values preserved) ->
  acc.2 = forallb passed acc.1.2 ->
  (foldl (Reviewer.review_step preserved todo) acc steps).2
  = forallb passed (foldl (Reviewer.review_step preserved todo) acc steps).1.2.
Proof.
  intros Hpres. revert acc. induction steps as [|s steps IH]; intros acc Hacc; simpl; [done|].
  apply IH. destruct acc as [[w revs] ok]. simpl in Hacc. subst ok.
  unfold Reviewer.review_step.
  destruct (Py.dict_get (filepath s) preserved) as [r|] eqn:Eg; simpl.
  - rewrite forallb_snoc. apply dict_get_values in Eg.
    rewrite Forall_forall in Hpres. rewrite (Hpres r Eg). by rewrite andb_true_r.
  - case_bool_decide; [|done].
    destruct (Reviewer.unreadable _); simpl.
    + rewrite forallb_snoc. simpl. by rewrite andb_false_r.
    + destruct (Reviewer.review_file _ _ _) as [w' r]. simpl. by rewrite forallb_snoc.
Qed.

(** X12. The [all_passed] flag of the review state a pass returns says
    what its records say: it is true exactly when every review in the state
    is a passed one. *)
Theorem reviewer_flag_matches_reviews (w : World) (st : State) (rs : ReviewState) :
  review_state (Reviewer.reviewer_agent w st).2 = Some rs ->
  all_passed rs = forallb passed (reviews rs).
Proof.
  unfold Reviewer.reviewer_agent.
  destruct (Reviewer.review_input st) as [cs|]; [|discriminate].
  destruct (review_state st) as [existing|].
  - pose proof (partition_reviews_passed (reviews existing)) as Hp.
    destruct (Reviewer.partition_reviews (reviews existing)) as [pres todo].
    simpl in Hp. simpl.
    destruct (_ <=? _).
    + intros [= <-]. simpl. symmetry. apply forallb_forall.
      intros r Hr. rewrite Forall_forall in Hp. apply Hp. by apply list_elem_of_In.
    + pose proof (review_loop_flag pres todo (implementation_steps (cs_task_plan cs))
                    (w, [], true) Hp eq_refl) as Hf.
      destruct (foldl _ _ _) as [[w' revs] ok]. simpl in *. by intros [= <-].
  - simpl.
    match goal with
    | |- context [foldl (Reviewer.review_step ?p ?t) ?a ?l] =>
        pose proof (review_loop_flag p t l a) as Hf;
        destruct (foldl (Reviewer.review_step p t) a l) as [[w' revs] ok]
    end.
    simpl in *. intros [= <-]. simpl. apply Hf; [constructor|done].
Qed.

End ReviewerMore.

(** ** Reviewer: failed reviews name an issue *)

Section ReviewerUpgrade.
Context `{Collaborators}.

Lemma review_step_grows (preserved : list (string * CodeReview)) (todo : gset string)
    (acc : World * list CodeReview * bool) (step : ImplementationTask) :
  exists more,
    (Reviewer.review_step preserved todo acc step).1.2 = (acc.1.2 ++ more)%list
    /\ (acc.2 = false -> (Reviewer.review_step preserved todo acc step).2 = false).
Proof.
  destruct acc as [[w revs] ok]. unfold Reviewer.review_step. simpl.
  destruct (Py.dict_get _ _) as [r|]; [by exists [r]|].
  case_bool_decide; [|exists []; by rewrite app_nil_r].
  destruct (Reviewer.unreadable _); [by eexists|].
  destruct (Reviewer.review_file _ _ _) as [w' r]. simpl.
  exists [r]. split; [done|]. by intros ->.
Qed.

Lemma review_loop_grows (preserved : list (string * CodeReview)) (todo : gset string)
    (steps : list ImplementationTask) (acc : World * list CodeReview * bool) :
  exists more,
    (foldl (Reviewer.review_step preserved todo) acc steps).1.2 = (acc.1.2 ++ more)%list
    /\ (acc.2 = false -> (foldl (Reviewer.review_step preserved todo) acc steps).2 = false).
Proof.
  revert acc. induction steps as [|s steps IH]; intros acc; simpl.
  - exists []. by rewrite app_nil_r.
  - destruct (IH (Reviewer.review_step preserved todo acc s)) as (m2 & E2 & F2).
    destruct (review_step_grows preserved todo acc s) as (m1 & E1 & F1).
    exists (m1 ++ m2)%list. rewrite E2, E1, app_assoc. split; [done|]. auto.
Qed.

(** The review state a pass below the cap returns, in terms of its loop. *)
Lemma reviewer_agent_pass (w : World) (st : State) (cs : CoderState) (rs : ReviewState) :
  Reviewer.review_input st = Some cs ->
  below_cap st ->
  review_state (Reviewer.reviewer_agent w st).2 = Some rs ->
  let out := foldl (Reviewer.review_step (review_queue st cs).1 (review_queue st cs).2)
               (w, [], true) (implementation_steps (cs_task_plan cs)) in
  reviews rs = out.1.2 /\ all_passed rs = out.2.
Proof.
  intros Hcs Hcap. unfold Reviewer.reviewer_agent, review_queue, below_cap in *.
  rewrite Hcs. destruct (review_state st) as [existing|].
  - destruct (Reviewer.partition_reviews (reviews existing)) as [pres todo]. simpl.
    assert (E : (max_iterations existing <=? iteration existing + 1) = false)
      by (apply Z.leb_gt; lia).
    rewrite E. destruct (foldl _ _ _) as [[w' revs] ok]. by intros [= <-].
  - simpl. destruct (foldl _ _ _) as [[w' revs] ok]. by intros [= <-].
Qed.

(** One turn of the loop on a file that the first two tiers fail without
    naming an issue. *)
Lemma review_step_upgrade (preserved : list (string * CodeReview)) (todo : gset string)
    (acc : World * list CodeReview * bool) (step : ImplementationTask) (r0 : CodeReview) :
  let content := Tools.read_file (filepath step) (disk acc.1.1) in
  Py.dict_get (filepath step) preserved = None ->
  filepath step ∈ todo ->
  Reviewer.unreadable content = false ->
  structured_review (llm_calls acc.1.1) step content = Some r0 ->
  passed r0 = false -> issues r0 = [] ->
  (Reviewer.review_step preserved todo acc step).1.2
  = (acc.1.2 ++ [{| review_filepath := review_filepath r0;
                    issues := [unspecified_issue (filepath step)];
                    passed := false; overall_quality := overall_quality r0;
                    summary := summary r0 |}])%list
  /\ (Reviewer.review_step preserved todo acc step).2 = false.
Proof.
  destruct acc as [[w revs] ok]. simpl. intros Hget Hin Hread Hrev Hfail Hno.
  unfold Reviewer.review_step. rewrite Hget, bool_decide_eq_true_2 by done.
  rewrite Hread. unfold Reviewer.review_file.
  unfold structured_review in Hrev. rewrite Hrev. simpl.
  unfold Reviewer.ensure_issue. rewrite Hfail, Hno. simpl.
  split; [done|]. apply andb_false_r.
Qed.

(** C4. Every review in the review state that [reviewer_agent] returns
    names an issue if it failed.  In particular a review that the model
    returns failed without any issue is not dropped and not turned into a
    pass: whenever the loop of a pass reaches a readable file of its queue
    and the structured review of that file (or the one recovered from a
    [failed_generation] error) comes back failed with an empty issue list,
    the review state holds, at that position, that review still failed and
    with exactly one synthesized issue of type [unspecified], and
    [all_passed] is false. *)
Theorem reviewer_failed_reviews_have_issues (w : World) (st : State) (rs : ReviewState) :
  review_state (Reviewer.reviewer_agent w st).2 = Some rs ->
  (forall r, r ∈ reviews rs -> passed r = false -> (1 <= length (issues r))%nat)
  /\ (forall (cs : CoderState) (pre post : list ImplementationTask)
             (step : ImplementationTask) (r0 : CodeReview),
        Reviewer.review_input st = Some cs ->
        below_cap st ->
        implementation_steps (cs_task_plan cs) = (pre ++ step :: post)%list ->
        let queue := review_queue st cs in
        let before := foldl (Reviewer.review_step queue.1 queue.2) (w, [], true) pre in
        let content := Tools.read_file (filepath step) (disk w) in
        Py.dict_get (filepath step) queue.1 = None ->
        filepath step ∈ queue.2 ->
        Reviewer.unreadable content = false ->
        structured_review (llm_calls before.1.1) step content = Some r0 ->
        passed r0 = false ->
        issues r0 = [] ->
        reviews rs !! length before.1.2
        = Some {| review_filepath := review_filepath r0;
                  issues := [unspecified_issue (filepath step)];
                  passed := false; overall_quality := overall_quality r0;
                  summary := summary r0 |}
        /\ all_passed rs = false).
Proof.
  intros Hrs. split.
  - intros r Hin Hfail.
    assert (Hall : Forall Reviewer.complete (reviews rs)).
    { revert Hrs. unfold Reviewer.reviewer_agent.
      destruct (Reviewer.review_input st) as [cs|]; [|discriminate].
      destruct (review_state st) as [existing|].
      - pose proof (partition_reviews_passed (reviews existing)) as Hp.
        destruct (Reviewer.partition_reviews (reviews existing)) as [pres todo].
        simpl in Hp. simpl.
        destruct (max_iterations existing <=? iteration existing + 1).
        + intros [= <-]. simpl. eapply Forall_impl; [exact Hp|].
          intros x Hx Hf. rewrite Hx in Hf. discriminate.
        + pose proof (review_loop_complete pres todo
                        (implementation_steps (cs_task_plan cs)) (w, [], true) Hp) as Hl.
          destruct (foldl _ _ _) as [[w' revs] ok]. simpl in *.
          intros [= <-]. simpl. apply Hl. constructor.
      - simpl.
        pose proof (review_loop_complete []
                      (list_to_set (filepath <$> implementation_steps (cs_task_plan cs)))
                      (implementation_steps (cs_task_plan cs)) (w, [], true)) as Hl.
        destruct (foldl _ _ _) as [[w' revs] ok]. simpl in *.
        intros [= <-]. simpl. apply Hl; constructor. }
    rewrite Forall_forall in Hall. specialize (Hall r Hin Hfail).
    destruct (issues r); [done|simpl; lia].
  - intros cs pre post step r0 Hcs Hcap Hsteps queue before content
      Hget Hin Hread Hrev Hfail Hno.
    destruct (reviewer_agent_pass w st cs rs Hcs Hcap Hrs) as [Hrevs Hflag].
    fold queue in Hrevs, Hflag. rewrite Hsteps, foldl_app in Hrevs, Hflag.
    simpl in Hrevs, Hflag. fold before in Hrevs, Hflag.
    assert (Hdisk : disk before.1.1 = disk w)
      by apply (review_loop_effect queue.1 queue.2 pre (w, [], true)).
    destruct (review_step_upgrade queue.1 queue.2 before step r0) as [Hone Hoff];
      try done; try (by rewrite Hdisk).
    destruct (review_loop_grows queue.1 queue.2 post
                (Reviewer.review_step queue.1 queue.2 before step)) as (more & Hmore & Hstay).
    rewrite Hrevs, Hflag, Hmore, Hone, (Hstay Hoff). split; [|done].
    rewrite <- app_assoc. by apply list_lookup_middle.
Qed.

End ReviewerUpgrade.

Lemma reviewer_failed_reviews_have_issues_witness :
  exists rs,
    review_state (@Reviewer.reviewer_agent Cases.terse Script.with_script
                    (Script.with_task_plan Cases.script_plan)).2 = Some rs
    /\ reviews rs !! 0%nat
       = Some {| review_filepath := "script.js";
                 issues := [unspecified_issue "script.js"];
                 passed := false; overall_quality := 3; summary := "Incomplete" |}
    /\ all_passed rs = false.
Proof.
  destruct (review_state (@Reviewer.reviewer_agent Cases.terse Script.with_script
                            (Script.with_task_plan Cases.script_plan)).2)
    as [rs|] eqn:E; [|vm_compute in E; discriminate].
  exists rs. split; [reflexivity|].
  destruct (@reviewer_failed_reviews_have_issues Cases.terse Script.with_script
              (Script.with_task_plan Cases.script_plan) rs E) as [_ Hup].
  refine (Hup _ [] [] (Script.task "script.js" 3) (Cases.bare_review "script.js")
            eq_refl I eq_refl eq_refl _ eq_refl eq_refl eq_refl eq_refl).
  apply elem_of_list_to_set, list_elem_of_here.
Defined.

Lemma reviewer_flag_matches_reviews_witness :
  exists rs,
    review_state (@Reviewer.reviewer_agent Script.plain Script.fresh_world
                    (Script.with_task_plan Script.web_task_plan)).2 = Some rs
    /\ all_passed rs = false
    /\ forallb passed (reviews rs) = false.
Proof.
  destruct (review_state (@Reviewer.reviewer_agent Script.plain Script.fresh_world
                            (Script.with_task_plan Script.web_task_plan)).2)
    as [rs|] eqn:E; [|vm_compute in E; discriminate].
  exists rs. split; [reflexivity|].
  pose proof (@reviewer_flag_matches_reviews Script.plain Script.fresh_world
                (Script.with_task_plan Script.web_task_plan) rs E) as Hf.
  assert (Ha : all_passed rs = false) by (vm_compute in E; by injection E as <-).
  split; [exact Ha|]. by rewrite <- Hf.
Defined.

Section ReviewerPreservation.
Context `{Collaborators}.

Lemma partition_reviews_invariant (existing : list CodeReview)
    (P : list (string * CodeReview) * gset string -> Prop) :
  P ([], ∅) ->
  (forall pres todo r, r ∈ existing -> P (pres, todo) ->
     P (if passed r then (Py.dict_set (review_filepath r) r pres, todo)
        else (pres, todo ∪ {[review_filepath r]}))) ->
  P (Reviewer.partition_reviews existing).
Proof.
  intros H0 Hstep. unfold Reviewer.partition_reviews.
  assert (G : forall l acc, (forall r, r ∈ l -> r ∈ existing) -> P acc ->
              P (foldl (fun '(preserved, todo) review =>
                          if passed review
                          then (Py.dict_set (review_filepath review) review preserved, todo)
                          else (preserved, todo ∪ {[review_filepath review]}))
                   acc l)).
  { induction l as [|r l IH]; intros [pres todo] Hl Hacc; simpl; [done|].
    apply IH.
    - intros x Hx. by apply Hl, list_elem_of_further.
    - specialize (Hstep pres todo r (Hl r (list_elem_of_here _ _)) Hacc).
      by destruct (passed r). }
  by apply G.
Qed.

(** With every earlier review passed, nothing is queued for review and
    the preserved reviews are earlier ones. *)
Lemma partition_all_passed (existing : list CodeReview) :
  Forall (fun r => passed r = true) existing ->
  (Reviewer.partition_reviews existing).2 = ∅
  /\ Forall (fun r => r ∈ existing) (Py.dict_values (Reviewer.partition_reviews existing).1).
Proof.
  intros Hall. rewrite Forall_forall in Hall.
  apply (partition_reviews_invariant existing
           (fun acc => acc.2 = ∅ /\ Forall (fun r => r ∈ existing) (Py.dict_values acc.1))).
  - split; [done|constructor].
  - intros pres todo r Hr [Ht Hp]. simpl in *. rewrite (Hall r Hr). simpl.
    split; [done|]. by apply dict_set_values.
Qed.

Lemma review_step_preserved (preserved : list (string * CodeReview)) (todo : gset string)
    (w : World) (revs : list CodeReview) (ok : bool) (s : ImplementationTask)
    (r : CodeReview) :
  Py.dict_get (filepath s) preserved = Some r ->
  Reviewer.review_step preserved todo (w, revs, ok) s = (w, (revs ++ [r])%list, ok).
Proof. unfold Reviewer.review_step. by intros ->. Qed.

Lemma review_step_skipped (preserved : list (string * CodeReview)) (todo : gset string)
    (w : World) (revs : list CodeReview) (ok : bool) (s : ImplementationTask) :
  Py.dict_get (filepath s) preserved = None ->
  filepath s ∉ todo ->
  Reviewer.review_step preserved todo (w, revs, ok) s = (w, revs, ok).
Proof.
  unfold Reviewer.review_step. intros -> Hno. by rewrite bool_decide_eq_false_2.
Qed.

Lemma review_step_missing (preserved : list (string * CodeReview)) (todo : gset string)
    (w : World) (revs : list CodeReview) (ok : bool) (s : ImplementationTask) :
  Py.dict_get (filepath s) preserved = None ->
  filepath s ∈ todo ->
  Reviewer.unreadable (Tools.read_file (filepath s) (disk w)) = true ->
  Reviewer.review_step preserved todo (w, revs, ok) s
  = (w, (revs ++ [Reviewer.missing_review (filepath s)])%list, false).
Proof.
  unfold Reviewer.review_step. intros -> Hin Hun.
  by rewrite bool_decide_eq_true_2, Hun.
Qed.

Lemma review_loop_nothing_queued (preserved : list (string * CodeReview))
    (steps : list ImplementationTask) (w : World) (revs : list CodeReview) (ok : bool) :
  exists kept,
    foldl (Reviewer.review_step preserved ∅) (w, revs, ok) steps
    = (w, (revs ++ kept)%list, ok)
    /\ Forall (fun r => r ∈ Py.dict_values preserved) kept.
Proof.
  revert revs. induction steps as [|s steps IH]; intros revs; cbn [foldl].
  - exists []. by rewrite app_nil_r.
  - destruct (Py.dict_get (filepath s) preserved) as [r|] eqn:Eg.
    + rewrite (review_step_preserved _ _ _ _ _ _ _ Eg).
      destruct (IH (revs ++ [r])%list) as (kept & -> & Hk).
      exists (r :: kept). rewrite <- app_assoc. split; [done|].
      constructor; [by eapply dict_get_values|done].
    + rewrite (review_step_skipped _ _ _ _ _ _ Eg) by set_solver. apply IH.
Qed.

(** X13. A pass over a review state in which every review already passed
    reviews nothing again: no file is read, the model is not called, the
    returned reviews are earlier ones, all passed, and [all_passed] is true;
    the iteration counter still advances by one. *)
Theorem reviewer_preserves_passed (w : World) (st : State) (rs : ReviewState) :
  review_state st = Some rs ->
  coder_state st <> None \/ task_plan st <> None ->
  Forall (fun r => passed r = true) (reviews rs) ->
  (Reviewer.reviewer_agent w st).1 = w
  /\ exists rs',
       review_state (Reviewer.reviewer_agent w st).2 = Some rs'
       /\ all_passed rs' = true
       /\ iteration rs' = iteration rs + 1
       /\ forall r, r ∈ reviews rs' -> r ∈ reviews rs /\ passed r = true.
Proof.
  intros Hrs Hin Hall. destruct (review_input_some st Hin) as [cs Hcs].
  unfold Reviewer.reviewer_agent. rewrite Hcs, Hrs.
  destruct (partition_all_passed (reviews rs) Hall) as [Htodo Hpres].
  destruct (Reviewer.partition_reviews (reviews rs)) as [pres todo].
  simpl in Htodo, Hpres. subst todo. simpl.
  assert (Hsub : forall kept r, Forall (fun r => r ∈ Py.dict_values pres) kept ->
                   r ∈ kept -> r ∈ reviews rs /\ passed r = true).
  { intros kept r Hk Hr. rewrite Forall_forall in Hk, Hpres, Hall.
    split; [by apply Hpres, Hk|by apply Hall, Hpres, Hk]. }
  destruct (_ <=? _).
  - simpl. split; [done|]. eexists. split; [reflexivity|]. simpl.
    split; [done|]. split; [done|].
    intros r Hr. apply (Hsub (Py.dict_values pres)); [|done].
    apply Forall_forall. auto.
  - destruct (review_loop_nothing_queued pres (implementation_steps (cs_task_plan cs))
                w [] true) as (kept & -> & Hk).
    simpl. split; [done|]. eexists. split; [reflexivity|]. simpl.
    split; [done|]. split; [done|]. intros r Hr. by apply (Hsub kept).
Qed.

Lemma review_loop_all_missing (todo : gset string) (w : World)
    (steps : list ImplementationTask) (revs : list CodeReview) (ok : bool) :
  (forall s, s ∈ steps -> filepath s ∈ todo
     /\ Reviewer.unreadable (Tools.read_file (filepath s) (disk w)) = true) ->
  foldl (Reviewer.review_step [] todo) (w, revs, ok) steps
  = (w, (revs ++ (Reviewer.missing_review <$> (filepath <$> steps)))%list,
     ok && bool_decide (steps = [])).
Proof.
  revert revs ok. induction steps as [|s steps IH]; intros revs ok Hs; cbn [foldl].
  - simpl. by rewrite app_nil_r, andb_true_r.
  - destruct (Hs s (list_elem_of_here _ _)) as [Hin Hun].
    rewrite (review_step_missing [] todo w revs ok s eq_refl Hin Hun).
    rewrite IH by (intros x Hx; by apply Hs, list_elem_of_further).
    rewrite <- app_assoc. simpl. by rewrite andb_false_r.
Qed.

(** X14. On the first pass, a project none of whose files can be read
    (missing, empty, shorter than five characters once stripped, or an
    [ERROR] text) is reviewed without the model: each step receives the
    critical [missing] review, in the order of the steps, and [all_passed] is
    false unless there is no step at all. *)
Theorem reviewer_missing_files (w : World) (st : State) (cs : CoderState) :
  review_state st = None ->
  Reviewer.review_input st = Some cs ->
  (forall s, s ∈ implementation_steps (cs_task_plan cs) ->
     Reviewer.unreadable (Tools.read_file (filepath s) (disk w)) = true) ->
  Reviewer.reviewer_agent w st
  = (w, Reviewer.reviewer_result st cs
          {| reviews := Reviewer.missing_review
                          <$> (filepath <$> implementation_steps (cs_task_plan cs));
             iteration := 0; max_iterations := 5;
             all_passed := bool_decide (implementation_steps (cs_task_plan cs) = []) |}
          "reviewed").
Proof.
  intros Hrs Hcs Hun. unfold Reviewer.reviewer_agent. rewrite Hcs, Hrs. simpl.
  rewrite review_loop_all_missing; [done|].
  intros s Hs. split; [|by apply Hun].
  apply elem_of_list_to_set, list_elem_of_fmap. by exists s.
Qed.

(** X15. The review built from a reply to the PASS/FAIL text protocol has
    no issue and quality 7 when it passes, and when it fails it has one or
    two issues, all of type [quality] and medium severity, and quality 5. *)
Theorem simple_review_issues (fp reply : string) :
  let r := Reviewer.simple_review fp reply in
  if passed r
  then issues r = [] /\ overall_quality r = 7 /\ summary r = "PASS"
  else (1 <= length (issues r) <= 2)%nat
       /\ Forall (fun i => issue_type i = "quality" /\ severity i = MEDIUM) (issues r)
       /\ overall_quality r = 5 /\ summary r = "FAIL".
Proof.
  unfold Reviewer.simple_review. cbv zeta.
  match goal with
  | |- context [if ?b then [] else _] => destruct b eqn:Ep
  end; simpl; [done|].
  destruct (Reviewer.extract_issues_from_response (Py.strip reply)) as [|i1 [|i2 l]];
    simpl; split_all; try lia; try done; repeat constructor.
Qed.

End ReviewerPreservation.

Lemma reviewer_preserves_passed_witness :
  (@Reviewer.reviewer_agent Script.plain Script.with_script
     (Script.with_review_state (Some Script.web_task_plan)
        {| reviews := [Script.passed_review "index.html"; Script.passed_review "style.css"];
           iteration := 0; max_iterations := 5; all_passed := true |})).1
  = Script.with_script.
Proof.
  refine (proj1 (@reviewer_preserves_passed Script.plain Script.with_script
                   (Script.with_review_state (Some Script.web_task_plan)
                      {| reviews := [Script.passed_review "index.html";
                                     Script.passed_review "style.css"];
                         iteration := 0; max_iterations := 5; all_passed := true |})
                   {| reviews := [Script.passed_review "index.html";
                                  Script.passed_review "style.css"];
                      iteration := 0; max_iterations := 5; all_passed := true |}
                   eq_refl _ _)).
  - right. discriminate.
  - repeat constructor.
Defined.

Lemma reviewer_missing_files_witness :
  exists cs rs,
    @Reviewer.reviewer_agent Script.plain Script.fresh_world
      (Script.with_task_plan Script.web_task_plan)
    = (Script.fresh_world,
       Reviewer.reviewer_result (Script.with_task_plan Script.web_task_plan) cs rs "reviewed")
    /\ reviews rs = [Reviewer.missing_review "index.html"; Reviewer.missing_review "style.css"].
Proof.
  eexists _, _. split.
  - refine (@reviewer_missing_files Script.plain Script.fresh_world
              (Script.with_task_plan Script.web_task_plan) _ eq_refl eq_refl _).
    intros s Hs. apply elem_of_cons in Hs as [->|Hs]; [reflexivity|].
    apply list_elem_of_singleton in Hs as ->. reflexivity.
  - reflexivity.
Defined.

(** ** Fixer: what a pass does and does not do *)

Section FixerMore.
Context `{Collaborators}.

Lemma fix_candidate_effect (acc : World * Fixer.FixReport) (review : CodeReview)
    (k : list string) :
  llm_calls (Fixer.fix_candidate acc review).1 = S (llm_calls acc.1)
  /\ (Tools.safe_path_for_project (review_filepath review) <> inl k ->
      disk (Fixer.fix_candidate acc review).1 !! k = disk acc.1 !! k).
Proof.
  destruct acc as [w rep]. unfold Fixer.fix_candidate. simpl.
  destruct (llm_invoke _ _) as [reply|e]; [|done].
  destruct (Fixer.empty_fix _); [done|].
  destruct (Fixer.much_shorter _ _); [done|].
  match goal with
  | |- context [Tools.write_file ?p ?c ?d] =>
      pose proof (write_file_disk p c d) as Hw;
      destruct (Tools.write_file p c d) as [d' res]
  end.
  simpl in Hw.
  assert (Hd : Tools.safe_path_for_project (review_filepath review) <> inl k ->
               d' !! k = disk w !! k).
  { intros Hk. destruct Hw as [->|(r & Hr & ->)]; [done|].
    apply lookup_insert_ne. intros ->. by apply Hk. }
  by destruct (Py.contains _ _).
Qed.

Lemma fix_loop_effect (l : list CodeReview) (acc : World * Fixer.FixReport)
    (k : list string) :
  llm_calls (foldl Fixer.fix_candidate acc l).1 = (llm_calls acc.1 + length l)%nat
  /\ ((forall r, r ∈ l -> Tools.safe_path_for_project (review_filepath r) <> inl k) ->
      disk (foldl Fixer.fix_candidate acc l).1 !! k = disk acc.1 !! k).
Proof.
  revert acc. induction l as [|r l IH]; intros acc; simpl; [split; [lia|done]|].
  destruct (IH (Fixer.fix_candidate acc r)) as [Hc Hd].
  destruct (fix_candidate_effect acc r k) as [Hc1 Hd1].
  split; [lia|]. intros Hk. rewrite Hd.
  - apply Hd1, Hk, list_elem_of_here.
  - intros x Hx. by apply Hk, list_elem_of_further.
Qed.

(** X16. The fixer sends exactly one corrective request per candidate, a
    candidate being a failed review with at least one issue; without a
    review state it sends none. *)
Theorem fixer_agent_calls (w : World) (st : State) :
  llm_calls (Fixer.fixer_agent w st).1.1
  = (llm_calls w
     + match review_state st with
       | Some rs => length (List.filter Fixer.is_candidate (reviews rs))
       | None => 0
       end)%nat.
Proof.
  unfold Fixer.fixer_agent. destruct (review_state st) as [rs|]; [|simpl; lia].
  destruct (fix_loop_effect (List.filter Fixer.is_candidate (reviews rs))
              (w, Fixer.no_report) []) as [Hc _].
  destruct (foldl _ _ _) as [w' rep]. simpl in *. done.
Qed.

(** X17. The fixer changes no file but those of its candidates: an entry
    of the tree that is not the resolved path of a failed review with issues
    is left as it was.  In particular a pass without candidates leaves the
    whole tree alone. *)
Theorem fixer_agent_touches_candidates_only (w : World) (st : State) (k : list string) :
  (forall rs r, review_state st = Some rs -> r ∈ reviews rs ->
     Fixer.is_candidate r = true ->
     Tools.safe_path_for_project (review_filepath r) <> inl k) ->
  disk (Fixer.fixer_agent w st).1.1 !! k = disk w !! k.
Proof.
  intros Hk. unfold Fixer.fixer_agent. destruct (review_state st) as [rs|]; [|done].
  destruct (fix_loop_effect (List.filter Fixer.is_candidate (reviews rs))
              (w, Fixer.no_report) k) as [_ Hd].
  destruct (foldl _ _ _) as [w' rep]. simpl in *. apply Hd.
  intros r Hr. apply list_elem_of_In, filter_In in Hr as [Hin Hc].
  apply (Hk rs r eq_refl); [by apply list_elem_of_In|done].
Qed.

Lemma promote_facts (r : CodeReview) :
  review_filepath (Fixer.promote r) = review_filepath r
  /\ issues (Fixer.promote r) = issues r
  /\ Reviewer.complete (Fixer.promote r)
  /\ (passed (Fixer.promote r) = false -> Fixer.promote r = r).
Proof.
  unfold Fixer.promote, Reviewer.complete.
  destruct (passed r) eqn:Ep; simpl; [rewrite Ep; by split_all|].
  destruct (issues r) as [|i l] eqn:Ei; simpl; [by split_all|].
  rewrite Ep, Ei. by split_all.
Qed.

(** The state the fixer returns, entry by entry. *)
Lemma fixer_agent_returns (w : World) (st : State) (rs : ReviewState) :
  review_state st = Some rs ->
  review_state (Fixer.fixer_agent w st).1.2
  = Some {| reviews := Fixer.promote <$> reviews rs; iteration := iteration rs;
            max_iterations := max_iterations rs; all_passed := all_passed rs |}
  /\ coder_state (Fixer.fixer_agent w st).1.2 = coder_state st
  /\ task_plan (Fixer.fixer_agent w st).1.2 = task_plan st.
Proof.
  intros Hrs. unfold Fixer.fixer_agent. rewrite Hrs.
  destruct (foldl _ _ _) as [w' rep]. by simpl.
Qed.

Lemma promote_passed (r : CodeReview) :
  Fixer.promote r = with_passed (passed r || (length (issues r) =? 0)%nat) r.
Proof.
  unfold Fixer.promote, with_passed. destruct r as [fp iss p q sm]. simpl.
  destruct p; simpl; [done|]. by destruct (length iss =? 0)%nat.
Qed.

(** X18. The fixer does not decide anything about the reviews: it returns
    the review state with the same counters and the same [all_passed] flag,
    and the same reviews in the same order, each unchanged but for its
    [passed] flag, which is true afterwards exactly when it was true before
    or the review names no issue.  So a failed review that names an issue
    stays as it is, still failed, whatever the fix attempted for it did; a
    failed review that names none is promoted to passed; and afterwards
    every failed review names an issue.  The other entries of the state are
    passed through. *)
Theorem fixer_agent_review_state (w : World) (st : State) (rs : ReviewState) :
  review_state st = Some rs ->
  exists rs',
    review_state (Fixer.fixer_agent w st).1.2 = Some rs'
    /\ iteration rs' = iteration rs
    /\ max_iterations rs' = max_iterations rs
    /\ all_passed rs' = all_passed rs
    /\ review_filepath <$> reviews rs' = review_filepath <$> reviews rs
    /\ issues <$> reviews rs' = issues <$> reviews rs
    /\ reviews rs'
       = (fun r => with_passed (passed r || (length (issues r) =? 0)%nat) r)
           <$> reviews rs
    /\ (forall i r, reviews rs !! i = Some r -> passed r = false -> issues r <> [] ->
          reviews rs' !! i = Some r)
    /\ (forall i r, reviews rs !! i = Some r -> passed r = false -> issues r = [] ->
          reviews rs' !! i = Some (with_passed true r))
    /\ (forall i r, reviews rs !! i = Some r -> passed r = true ->
          reviews rs' !! i = Some r)
    /\ Forall Reviewer.complete (reviews rs')
    /\ (forall r, r ∈ reviews rs' -> passed r = false -> r ∈ reviews rs)
    /\ coder_state (Fixer.fixer_agent w st).1.2 = coder_state st
    /\ task_plan (Fixer.fixer_agent w st).1.2 = task_plan st.
Proof.
  intros Hrs. destruct (fixer_agent_returns w st rs Hrs) as (Hrs' & Hcs & Htp).
  eexists. split; [exact Hrs'|]. simpl. split_all; try done.
  - rewrite <- list_fmap_compose. apply list_fmap_ext. intros i r _. apply promote_facts.
  - rewrite <- list_fmap_compose. apply list_fmap_ext. intros i r _. apply promote_facts.
  - apply list_fmap_ext. intros i r _. apply promote_passed.
  - intros i r Hi Hf Hne. rewrite list_lookup_fmap, Hi. simpl. f_equal.
    unfold Fixer.promote. rewrite Hf. by destruct (issues r).
  - intros i r Hi Hf He. rewrite list_lookup_fmap, Hi. simpl. f_equal.
    unfold Fixer.promote, with_passed. by rewrite Hf, He.
  - intros i r Hi Hp. rewrite list_lookup_fmap, Hi. simpl. f_equal.
    unfold Fixer.promote. by rewrite Hp.
  - apply Forall_fmap, Forall_forall. intros r _. apply promote_facts.
  - intros r Hr Hf. apply list_elem_of_fmap in Hr as (r0 & -> & Hr0).
    destruct (promote_facts r0) as (_ & _ & _ & Hsame). by rewrite (Hsame Hf).
Qed.

(** X19. A fix that passes both checks is written back: if the body is not
    empty, has at least 10 characters once stripped and at least 30% of the
    length of the content read, and the path is accepted and the host does
    not refuse the write, then the file holds the body afterwards and is
    recorded as fixed. *)
Theorem fixer_accepts_fix (w : World) (rep : Fixer.FixReport) (review : CodeReview)
    (reply : string) (r : list string) :
  let fp := review_filepath review in
  let content := Tools.read_file fp (disk w) in
  let body := Fixer.fixed_body reply (Py.file_ext fp) in
  let out := Fixer.fix_candidate (w, rep) review in
  llm_invoke (llm_calls w) (fixer_prompt (Py.file_ext fp) fp content (issues review))
    = Reply reply ->
  body <> "" ->
  10 <= Py.len (Py.strip body) ->
  3 * Py.len content <= 10 * Py.len body ->
  Tools.safe_path_for_project fp = inl r ->
  os_write_error (disk w) r = None ->
  disk out.1 = <[r := body]> (disk w)
  /\ Fixer.fixed_files out.2 = (Fixer.fixed_files rep ++ [fp])%list.
Proof.
  intros fp content body out Hreply Hne Hlen Hratio Hpath Hos. subst out.
  unfold Fixer.fix_candidate. fold fp. fold content. rewrite Hreply. fold body.
  assert (He : Fixer.empty_fix body = false).
  { unfold Fixer.empty_fix. apply orb_false_iff. split.
    - by destruct body.
    - by apply Z.ltb_ge. }
  assert (Hs : Fixer.much_shorter (Py.len body) (Py.len content) = false).
  { unfold Fixer.much_shorter. apply Z.ltb_ge. lia. }
  rewrite He, Hs. unfold Tools.write_file. fold fp.
  change (disk (tick w)) with (disk w). rewrite Hpath, Hos.
  cbn [Py.contains String.prefix]. simpl.
  split; [done|].
  by destruct (Py.is_empty content || Py.startswith content "ERROR").
Qed.

End FixerMore.

Lemma fixer_agent_touches_candidates_only_witness :
  disk (@Fixer.fixer_agent (Script.answering "document.title = 'fixed page';")
          Script.with_script
          (Script.with_review_state (Some Script.web_task_plan)
             {| reviews := [Script.failed_review "index.html"];
                iteration := 0; max_iterations := 5; all_passed := false |})).1.1
    !! ["srv"; "generated_project"; "script.js"]
  = Some Script.script_js.
Proof.
  refine (@fixer_agent_touches_candidates_only
            (Script.answering "document.title = 'fixed page';") Script.with_script
            (Script.with_review_state (Some Script.web_task_plan)
               {| reviews := [Script.failed_review "index.html"];
                  iteration := 0; max_iterations := 5; all_passed := false |})
            ["srv"; "generated_project"; "script.js"] _).
  intros rs r [= <-] Hr _. apply list_elem_of_singleton in Hr as ->.
  vm_compute. discriminate.
Defined.

Lemma fixer_agent_review_state_witness :
  exists rs',
    review_state (@Fixer.fixer_agent Script.plain Script.fresh_world
                    (Script.with_review_state (Some Script.web_task_plan)
                       Cases.mixed)).1.2 = Some rs'
    /\ iteration rs' = 1 /\ all_passed rs' = false
    /\ reviews rs' !! 1%nat = Some (Script.failed_review "style.css")
    /\ reviews rs' !! 2%nat = Some (with_passed true (Cases.bare_review "script.js")).
Proof.
  destruct (@fixer_agent_review_state Script.plain Script.fresh_world
              (Script.with_review_state (Some Script.web_task_plan) Cases.mixed)
              Cases.mixed eq_refl)
    as (rs' & Hrs & Hit & _ & Hap & _ & _ & _ & Hstay & Hup & _).
  exists rs'. split_all; try assumption.
  - apply Hstay; [reflexivity|reflexivity|discriminate].
  - apply Hup; reflexivity.
Defined.

Lemma fixer_accepts_fix_witness :
  let out := @Fixer.fix_candidate
               (Script.answering "document.getElementById('add').onclick = addItem;")
               (Script.with_script, Fixer.no_report) (Script.failed_review "script.js") in
  disk out.1 !! ["srv"; "generated_project"; "script.js"]
    = Some "document.getElementById('add').onclick = addItem;"
  /\ Fixer.fixed_files out.2 = ["script.js"].
Proof.
  intros out.
  destruct (@fixer_accepts_fix
              (Script.answering "document.getElementById('add').onclick = addItem;")
              Script.with_script Fixer.no_report (Script.failed_review "script.js")
              "document.getElementById('add').onclick = addItem;"
              ["srv"; "generated_project"; "script.js"] eq_refl)
    as [Hd Hf].
  - discriminate.
  - vm_compute. discriminate.
  - vm_compute. discriminate.
  - reflexivity.
  - reflexivity.
  - split; [|exact Hf]. fold out in Hd. rewrite Hd. apply lookup_insert_eq.
Defined.

(** ** The review and fix loop *)

Section ReviewLoop.
Context `{Collaborators}.

(** What a reviewer pass returns, as far as the loop is concerned: no
    review state together with the FAILED phase, or a review state whose
    counter moved on, whose cap is the earlier one (5 at first), and whose
    [all_passed] is true once the counter has reached the cap. *)
Lemma reviewer_agent_counters (w : World) (st : State) :
  match review_state (Reviewer.reviewer_agent w st).2 with
  | None => current_phase (Reviewer.reviewer_agent w st).2 = Some FAILED
  | Some rs' =>
      max_iterations rs' - iteration rs' = Loops.passes_left st
      /\ (max_iterations rs' <= iteration rs' -> all_passed rs' = true)
      /\ coder_state (Reviewer.reviewer_agent w st).2 <> None
  end.
Proof.
  unfold Reviewer.reviewer_agent, Loops.passes_left.
  destruct (Reviewer.review_input st) as [cs|]; [|done].
  destruct (review_state st) as [existing|].
  - destruct (Reviewer.partition_reviews (reviews existing)) as [pres todo]. simpl.
    destruct (_ <=? _) eqn:E; simpl.
    + split_all; [lia|done|done].
    + apply Z.leb_gt in E. destruct (foldl _ _ _) as [[w' revs] ok]. simpl.
      split_all; [lia|lia|done].
  - simpl. destruct (foldl _ _ _) as [[w' revs] ok]. simpl.
    split_all; [lia|lia|done].
Qed.

Lemma passes_left_after_fixer (w : World) (st : State) (rs : ReviewState) :
  review_state st = Some rs ->
  Loops.passes_left (Fixer.fixer_agent w st).1.2
  = max_iterations rs - iteration rs - 1.
Proof.
  intros Hrs. destruct (fixer_agent_returns w st rs Hrs) as (Hrs' & _).
  unfold Loops.passes_left. rewrite Hrs'. simpl. lia.
Qed.

Lemma route_fixer_inv (st : State) :
  String.eqb (Graph.route_after_review st) "fixer" = true ->
  exists rs, review_state st = Some rs /\ all_passed rs = false
             /\ iteration rs < max_iterations rs.
Proof.
  unfold Graph.route_after_review.
  destruct (review_state st) as [rs|]; [|discriminate].
  destruct (all_passed rs) eqn:Ea; [discriminate|].
  destruct (_ <=? _) eqn:E; [discriminate|]. apply Z.leb_gt in E.
  intros _. exists rs. by split_all.
Qed.

(** X20. The review and fix loop ends.  Whatever the model answers, the
    graph leaves the loop for the test generator after as many fixer passes
    as the cap leaves room for (five when the loop is entered without a
    review state), and it leaves with [all_passed] true, or with the FAILED
    phase when the reviewer had neither a coder state nor a task plan. *)
Theorem review_fix_loop_ends (fuel : nat) (w : World) (st : State) :
  Loops.passes_left st <= Z.of_nat fuel ->
  exists w' st',
    Loops.review_fix_loop fuel w st = Some (w', st')
    /\ Graph.successor Graph.reviewer st' = Some Graph.test_generator
    /\ match review_state st' with
       | Some rs => all_passed rs = true
       | None => current_phase st' = Some FAILED
       end.
Proof.
  revert w st. induction fuel as [|fuel IH]; intros w st Hfuel;
    cbn [Loops.review_fix_loop];
    pose proof (reviewer_agent_counters w st) as Hcount;
    destruct (Reviewer.reviewer_agent w st) as [w1 st1]; simpl in Hcount;
    destruct (String.eqb (Graph.route_after_review st1) "fixer") eqn:Eroute.
  - apply route_fixer_inv in Eroute as (rs1 & Hrs1 & _ & Hlt).
    rewrite Hrs1 in Hcount. lia.
  - exists w1, st1. split; [done|]. rewrite successor_reviewer, Eroute. split; [done|].
    destruct (review_state st1) as [rs1|] eqn:Hrs1; [|done].
    destruct Hcount as (_ & Hcap & _).
    revert Eroute. unfold Graph.route_after_review. rewrite Hrs1.
    destruct (all_passed rs1); [done|].
    destruct (_ <=? _) eqn:E; [|discriminate]. apply Z.leb_le in E. intros _. auto.
  - apply route_fixer_inv in Eroute as (rs1 & Hrs1 & _ & Hlt).
    rewrite Hrs1 in Hcount. destruct Hcount as (Hleft & _ & _).
    pose proof (passes_left_after_fixer w1 st1 rs1 Hrs1) as Hafter.
    destruct (Fixer.fixer_agent w1 st1) as [[w2 st2] rep]. simpl in Hafter.
    apply IH. lia.
  - exists w1, st1. split; [done|]. rewrite successor_reviewer, Eroute. split; [done|].
    destruct (review_state st1) as [rs1|] eqn:Hrs1; [|done].
    destruct Hcount as (_ & Hcap & _).
    revert Eroute. unfold Graph.route_after_review. rewrite Hrs1.
    destruct (all_passed rs1); [done|].
    destruct (_ <=? _) eqn:E; [|discriminate]. apply Z.leb_le in E. intros _. auto.
Qed.

End ReviewLoop.

Lemma review_fix_loop_ends_witness :
  exists w' st',
    @Loops.review_fix_loop Script.plain 5 Script.fresh_world
      (Script.with_task_plan Script.web_task_plan) = Some (w', st')
    /\ Graph.successor Graph.reviewer st' = Some Graph.test_generator.
Proof.
  destruct (@review_fix_loop_ends Script.plain 5 Script.fresh_world
              (Script.with_task_plan Script.web_task_plan))
    as (w' & st' & Hloop & Hroute & _).
  - vm_compute. discriminate.
  - exists w', st'. split; assumption.
Defined.

(** ** Strings: strip, prefixes and fences *)

Section StringFacts.

Lemma append_cons (c : ascii) (a b : string) : String c a +:+ b = String c (a +:+ b).
Proof. reflexivity. Qed.

Lemma append_empty_r (a : string) : a +:+ "" = a.
Proof. induction a as [|c a IH]; [done|]. by rewrite append_cons, IH. Qed.

Lemma append_assoc (a b c : string) : (a +:+ b) +:+ c = a +:+ b +:+ c.
Proof. induction a as [|x a IH]; [done|]. by rewrite !append_cons, IH. Qed.

Lemma length_append (a b : string) :
  String.length (a +:+ b) = (String.length a + String.length b)%nat.
Proof. induction a as [|c a IH]; [done|]. rewrite append_cons. simpl. by rewrite IH. Qed.

Lemma has_char_append (x : ascii) (a b : string) :
  has_char x (a +:+ b) = has_char x a || has_char x b.
Proof.
  induction a as [|c a IH]; [done|]. rewrite append_cons. simpl.
  by rewrite IH, orb_assoc.
Qed.

Lemma prefix_cons (a b : ascii) (p s : string) :
  String.prefix (String a p) (String b s)
  = if Ascii.eqb a b then String.prefix p s else false.
Proof.
  simpl. destruct (ascii_dec a b) as [->|Hne].
  - by rewrite Ascii.eqb_refl.
  - apply Ascii.eqb_neq in Hne. by rewrite Hne.
Qed.

Lemma prefix_append_same (a p s : string) :
  String.prefix (a +:+ p) (a +:+ s) = String.prefix p s.
Proof.
  induction a as [|c a IH]; [done|].
  by rewrite !append_cons, prefix_cons, Ascii.eqb_refl.
Qed.

Lemma prefix_length (p s : string) :
  String.prefix p s = true -> (String.length p <= String.length s)%nat.
Proof.
  revert p. induction s as [|b s IH]; intros [|a p]; simpl; try lia; try discriminate.
  destruct (ascii_dec a b); [|discriminate]. intros Hp. apply IH in Hp. lia.
Qed.

Lemma prefix_of_prefix (a b s : string) :
  String.prefix (a +:+ b) s = true -> String.prefix a s = true.
Proof.
  revert s. induction a as [|c a IH]; intros s; [by destruct s|].
  rewrite append_cons. destruct s as [|x s]; [discriminate|].
  rewrite !prefix_cons. destruct (Ascii.eqb c x); [apply IH|discriminate].
Qed.

Lemma prefix_fence_no_backtick (s : string) :
  has_char backtick s = false -> String.prefix Fence.fence s = false.
Proof.
  destruct s as [|c s]; [done|]. simpl has_char. intros Hc.
  apply orb_false_iff in Hc as [Hc _]. unfold Fence.fence, backtick in *.
  rewrite prefix_cons. rewrite Ascii.eqb_sym in Hc. by rewrite Hc.
Qed.

Lemma drop_str_append (a b : string) : Py.drop_str (String.length a) (a +:+ b) = b.
Proof. induction a as [|c a IH]; [by destruct b|]. by rewrite append_cons. Qed.

(** *** [strip] *)

Lemma lstrip_cases (s : string) :
  Py.lstrip s = "" \/ exists c t, Py.lstrip s = String c t /\ Py.is_space c = false.
Proof.
  induction s as [|c s IH]; [by left|]. simpl.
  destruct (Py.is_space c) eqn:E; [done|]. right. eauto.
Qed.

Lemma rstrip_idem (s : string) : Py.rstrip (Py.rstrip s) = Py.rstrip s.
Proof.
  induction s as [|c s IH]; [done|]. simpl.
  destruct (Py.is_space c && Py.is_empty (Py.rstrip s)) eqn:E; [done|].
  simpl. by rewrite IH, E.
Qed.

Lemma strip_idem (s : string) : Py.strip (Py.strip s) = Py.strip s.
Proof.
  unfold Py.strip. destruct (lstrip_cases s) as [->|(c & t & -> & Hc)]; [done|].
  simpl. rewrite Hc. simpl. rewrite Hc. simpl. by rewrite rstrip_idem, Hc.
Qed.

Lemma has_char_lstrip (x : ascii) (s : string) :
  has_char x s = false -> has_char x (Py.lstrip s) = false.
Proof.
  induction s as [|c s IH]; [done|]. simpl. intros Hs.
  apply orb_false_iff in Hs as [Hc Hs].
  destruct (Py.is_space c); [by apply IH|]. simpl. by rewrite Hc, Hs.
Qed.

Lemma has_char_rstrip (x : ascii) (s : string) :
  has_char x s = false -> has_char x (Py.rstrip s) = false.
Proof.
  induction s as [|c s IH]; [done|]. simpl. intros Hs.
  apply orb_false_iff in Hs as [Hc Hs].
  destruct (_ && _); [done|]. simpl. by rewrite Hc, IH.
Qed.

Lemma has_char_strip (x : ascii) (s : string) :
  has_char x s = false -> has_char x (Py.strip s) = false.
Proof. intros Hs. by apply has_char_rstrip, has_char_lstrip. Qed.

(** A text that begins and ends with a fence is its own [strip]. *)
Lemma rstrip_fenced (u : string) : Py.rstrip (u +:+ Fence.fence) = u +:+ Fence.fence.
Proof.
  induction u as [|c u IH]; [done|]. rewrite append_cons. simpl. rewrite IH.
  destruct (u +:+ Fence.fence) eqn:E; [|by rewrite andb_false_r].
  apply (f_equal String.length) in E. rewrite length_append in E. simpl in E. lia.
Qed.

Lemma strip_fenced (u : string) :
  Py.strip (Fence.fence +:+ u +:+ Fence.fence) = Fence.fence +:+ u +:+ Fence.fence.
Proof.
  unfold Py.strip. rewrite <- append_assoc.
  change (Py.lstrip ((Fence.fence +:+ u) +:+ Fence.fence))
    with ((Fence.fence +:+ u) +:+ Fence.fence).
  apply rstrip_fenced.
Qed.

End StringFacts.

(** ** Extraction of fenced code *)

Section FenceFacts.

Lemma opening_needs_fence (langs : list string) (s : string) :
  String.prefix Fence.fence s = false -> Fence.opening langs s = None.
Proof.
  intros Hs. induction langs as [|l langs IH]; [done|]. simpl.
  destruct (String.prefix (Fence.fence +:+ l +:+ Py.nl) s) eqn:E; [|done].
  apply prefix_of_prefix in E. congruence.
Qed.

Lemma opening_short (langs : list string) (s : string) :
  (String.length s <= 3)%nat -> Fence.opening langs s = None.
Proof.
  intros Hs. induction langs as [|l langs IH]; [done|]. simpl.
  destruct (String.prefix (Fence.fence +:+ l +:+ Py.nl) s) eqn:E; [|done].
  apply prefix_length in E. rewrite !length_append in E. simpl in E. lia.
Qed.

Lemma findall_short (langs : list string) (s : string) :
  (String.length s <= 3)%nat -> Fence.findall_from langs s 0 = [].
Proof.
  induction s as [|c s IH]; [done|]. intros Hs.
  cbn [Fence.findall_from]. rewrite opening_short by done. apply IH. simpl in Hs. lia.
Qed.

Lemma findall_skipped (langs : list string) (s : string) (k : nat) :
  (String.length s <= k)%nat -> Fence.findall_from langs s k = [].
Proof.
  revert k. induction s as [|c s IH]; intros k Hk; [done|].
  simpl in Hk. destruct k as [|k]; [lia|]. cbn [Fence.findall_from]. apply IH. lia.
Qed.

(** No block is found in a text whose only backticks are a closing fence. *)
Lemma findall_before_closing (langs : list string) (u : string) :
  has_char backtick u = false ->
  Fence.findall_from langs (u +:+ Fence.fence) 0 = [].
Proof.
  induction u as [|c u IH]; intros Hu; [by apply findall_short|].
  rewrite append_cons. cbn [Fence.findall_from].
  simpl in Hu. apply orb_false_iff in Hu as [Hc Hu].
  rewrite opening_needs_fence; [by apply IH|].
  unfold Fence.fence, backtick in *. rewrite prefix_cons.
  rewrite Ascii.eqb_sym in Hc. by rewrite Hc.
Qed.

Lemma findall_no_backtick (langs : list string) (s : string) :
  has_char backtick s = false -> Fence.findall langs s = [].
Proof.
  unfold Fence.findall. induction s as [|c s IH]; intros Hs; [done|].
  cbn [Fence.findall_from].
  rewrite opening_needs_fence by (by apply prefix_fence_no_backtick).
  simpl in Hs. apply orb_false_iff in Hs as [_ Hs]. by apply IH.
Qed.

Lemma before_fence_plain (body : string) :
  has_char backtick body = false ->
  Fence.before_fence (body +:+ Fence.fence) = Some body.
Proof.
  induction body as [|c body IH]; intros Hb; [done|].
  rewrite append_cons.
  assert (Hp : String.prefix Fence.fence (String c (body +:+ Fence.fence)) = false).
  { simpl in Hb. apply orb_false_iff in Hb as [Hc _].
    unfold Fence.fence, backtick in *. rewrite prefix_cons.
    rewrite Ascii.eqb_sym in Hc. by rewrite Hc. }
  simpl in Hb. apply orb_false_iff in Hb as [_ Hb].
  cbn [Fence.before_fence]. rewrite Hp, (IH Hb). done.
Qed.

(** Two tags without line breaks open the same text only if they are equal. *)
Lemma tag_prefix (l lang rest : string) :
  has_char Py.LF l = false -> has_char Py.LF lang = false ->
  String.prefix (l +:+ Py.nl) (lang +:+ Py.nl +:+ rest) = bool_decide (l = lang).
Proof.
  revert lang. induction l as [|a l IH]; intros [|b lang] Hl Hlang.
  - change (String.prefix (String Py.LF "") (String Py.LF rest) = bool_decide ("" = "")).
    rewrite prefix_cons, Ascii.eqb_refl, bool_decide_eq_true_2 by done. by destruct rest.
  - rewrite append_cons. change ("" +:+ Py.nl) with (String Py.LF "").
    rewrite prefix_cons. simpl in Hlang. apply orb_false_iff in Hlang as [Hb _].
    rewrite Ascii.eqb_sym in Hb. by rewrite Hb.
  - rewrite append_cons. change ("" +:+ Py.nl +:+ rest) with (String Py.LF rest).
    rewrite prefix_cons. simpl in Hl. apply orb_false_iff in Hl as [Ha _]. by rewrite Ha.
  - rewrite !append_cons, prefix_cons.
    simpl in Hl, Hlang. apply orb_false_iff in Hl as [_ Hl].
    apply orb_false_iff in Hlang as [_ Hlang].
    destruct (Ascii.eqb a b) eqn:E.
    + apply Ascii.eqb_eq in E as ->. rewrite (IH lang Hl Hlang).
      apply bool_decide_ext. split; [by intros ->|by intros [= ->]].
    + symmetry. apply bool_decide_eq_false. intros [= -> _].
      by rewrite Ascii.eqb_refl in E.
Qed.

Lemma opening_tag (langs : list string) (lang rest : string) :
  Forall plain_tag langs -> plain_tag lang ->
  Fence.opening langs (Fence.fence +:+ lang +:+ Py.nl +:+ rest)
  = if bool_decide (lang ∈ langs)
    then Some (String.length (Fence.fence +:+ lang +:+ Py.nl)) else None.
Proof.
  intros Hlangs [Hlang _]. induction Hlangs as [|l langs [Hl _] _ IH].
  - by rewrite bool_decide_eq_false_2 by apply not_elem_of_nil.
  - cbn [Fence.opening]. rewrite prefix_append_same, tag_prefix by done.
    destruct (decide (l = lang)) as [->|Hne].
    + rewrite bool_decide_eq_true_2 by done.
      by rewrite bool_decide_eq_true_2 by apply list_elem_of_here.
    + rewrite bool_decide_eq_false_2 by done. rewrite IH.
      apply (f_equal (fun b : bool =>
               if b then Some (String.length (Fence.fence +:+ lang +:+ Py.nl)) else None)).
      apply bool_decide_ext. rewrite elem_of_cons.
      split; [by right|]. intros [E|E]; [congruence|done].
Qed.

Lemma findall_from_step (langs : list string) (c : ascii) (s : string) :
  Fence.findall_from langs (String c s) 0
  = match Fence.opening langs (String c s) with
    | Some n =>
        match Fence.before_fence (Py.drop_str n (String c s)) with
        | Some body => body :: Fence.findall_from langs s (n + String.length body + 2)
        | None => Fence.findall_from langs s 0
        end
    | None => Fence.findall_from langs s 0
    end.
Proof. reflexivity. Qed.

(** The blocks of a text that is one fenced block. *)
Lemma findall_single_block (langs : list string) (lang body : string) :
  Forall plain_tag langs -> plain_tag lang -> has_char backtick body = false ->
  Fence.findall langs (Fence.fence +:+ lang +:+ Py.nl +:+ body +:+ Fence.fence)
  = if bool_decide (lang ∈ langs) then [body] else [].
Proof.
  intros Hlangs Hlang Hbody. unfold Fence.findall.
  pose proof (opening_tag langs lang (body +:+ Fence.fence) Hlangs Hlang) as Hopen.
  set (text := Fence.fence +:+ lang +:+ Py.nl +:+ body +:+ Fence.fence) in *.
  assert (Htext : text = String backtick
                           (String backtick (String backtick
                              ((lang +:+ Py.nl +:+ body) +:+ Fence.fence))))
    by (unfold text; by rewrite !append_assoc).
  assert (Hu : has_char backtick (lang +:+ Py.nl +:+ body) = false).
  { destruct Hlang as [_ Hl]. rewrite !has_char_append, Hl, Hbody. done. }
  case_bool_decide as Hin.
  - rewrite Htext, findall_from_step, <- Htext, Hopen.
    replace text with ((Fence.fence +:+ lang +:+ Py.nl) +:+ body +:+ Fence.fence)
      by (unfold text; by rewrite !append_assoc).
    rewrite drop_str_append, before_fence_plain by done.
    f_equal. apply findall_skipped.
    cbn [String.length]. rewrite !length_append.
    cbn [String.length Fence.fence Py.nl]. lia.
  - rewrite Htext, findall_from_step, <- Htext, Hopen.
    assert (Hfirst : exists c t, (lang +:+ Py.nl +:+ body) +:+ Fence.fence = String c t
                                 /\ Ascii.eqb backtick c = false).
    { destruct (lang +:+ Py.nl +:+ body) as [|c t] eqn:E.
      - apply (f_equal String.length) in E. rewrite !length_append in E. simpl in E. lia.
      - exists c, (t +:+ Fence.fence). split; [done|].
        simpl in Hu. apply orb_false_iff in Hu as [Hc _]. by rewrite Ascii.eqb_sym. }
    destruct Hfirst as (c & t & Ect & Hc).
    rewrite !findall_from_step, !opening_needs_fence.
    + by apply findall_before_closing.
    + rewrite Ect. unfold Fence.fence, backtick in *.
      by rewrite !prefix_cons, ?Ascii.eqb_refl, Hc.
    + rewrite Ect. unfold Fence.fence, backtick in *.
      by rewrite !prefix_cons, ?Ascii.eqb_refl, Hc.
Qed.

Lemma first_match_single_block (patterns : list (list string)) (lang body : string) :
  Forall (Forall plain_tag) patterns -> plain_tag lang ->
  has_char backtick body = false ->
  Exists (fun langs => lang ∈ langs) patterns ->
  Fence.first_match patterns
    (Fence.fence +:+ lang +:+ Py.nl +:+ body +:+ Fence.fence) = Some body.
Proof.
  intros Hp Hlang Hbody Hex. induction Hp as [|langs patterns Hl _ IH].
  - by apply Exists_nil in Hex.
  - cbn [Fence.first_match]. rewrite findall_single_block by done.
    case_bool_decide as Hin; [done|].
    apply IH. apply Exists_cons in Hex as [?|?]; done.
Qed.

Lemma first_match_no_backtick (patterns : list (list string)) (s : string) :
  has_char backtick s = false -> Fence.first_match patterns s = None.
Proof.
  intros Hs. induction patterns as [|langs patterns IH]; [done|].
  cbn [Fence.first_match]. by rewrite findall_no_backtick.
Qed.

Lemma any_lang_plain : Forall plain_tag Fence.any_lang.
Proof. repeat constructor. Qed.

Lemma lang_map_plain (ext : string) (langs : list string) :
  Fixer.lang_map !! ext = Some langs -> Forall plain_tag langs.
Proof.
  intros Hl. unfold Fixer.lang_map in Hl. apply elem_of_list_to_map_2 in Hl.
  repeat (apply elem_of_cons in Hl as [[= -> ->]|Hl]; [repeat constructor|]).
  by apply elem_of_nil in Hl.
Qed.

Lemma fixer_patterns_plain (ext : string) :
  Forall (Forall plain_tag)
    (((fun lang => [lang]) <$> default [] (Fixer.lang_map !! ext))
       ++ [Fence.any_lang; [""]])%list.
Proof.
  apply Forall_app. split.
  - destruct (Fixer.lang_map !! ext) as [langs|] eqn:E; [|constructor].
    apply lang_map_plain in E. simpl. apply Forall_fmap.
    eapply Forall_impl; [exact E|]. intros l Hl. by constructor.
  - repeat constructor.
Qed.

End FenceFacts.

Section ExtractionFacts.

(** X21. A reply that is one fenced block, with one of the language tags
    of the patterns or none, around a body without backticks, is reduced to
    that body by both extraction functions, whatever the file extension.  The
    fixer then takes the body as it is, the coder's direct-generation tier
    takes it stripped. *)
Theorem fenced_reply_gives_body (lang body ext : string) :
  let reply := Fence.fence +:+ lang +:+ Py.nl +:+ body +:+ Fence.fence in
  lang ∈ Fence.any_lang ->
  has_char backtick body = false ->
  body <> "" ->
  Coder.extract_code_from_response reply = Some body
  /\ Fixer.extract_code_from_response reply ext = Some body
  /\ Fixer.fixed_body reply ext = body
  /\ Coder.fallback_body reply = Py.strip body.
Proof.
  intros reply Hlang Hbody Hne.
  assert (Hplain : plain_tag lang).
  { pose proof any_lang_plain as Hp. rewrite Forall_forall in Hp. by apply Hp. }
  assert (Hc : Coder.extract_code_from_response reply = Some body).
  { apply first_match_single_block; try done.
    - repeat constructor.
    - by apply Exists_cons_hd. }
  assert (Hf : Fixer.extract_code_from_response reply ext = Some body).
  { apply first_match_single_block; try done.
    - apply fixer_patterns_plain.
    - apply Exists_app. right. by apply Exists_cons_hd. }
  assert (Hstrip : Py.strip reply = reply).
  { replace reply with (Fence.fence +:+ (lang +:+ Py.nl +:+ body) +:+ Fence.fence)
      by (unfold reply; by rewrite !append_assoc).
    apply strip_fenced. }
  assert (Hemp : Py.is_empty body = false) by (by destruct body).
  split_all; try done.
  - unfold Fixer.fixed_body. by rewrite Hstrip, Hf, Hemp.
  - unfold Coder.fallback_body. rewrite Hc, Hemp.
    unfold Py.startswith. change "```" with Fence.fence.
    by rewrite prefix_fence_no_backtick by (by apply has_char_strip).
Qed.

(** X22. A reply without any backtick is taken whole: the coder's
    direct-generation tier and the fixer both use the reply, stripped of
    surrounding white space, as the body of the file. *)
Theorem plain_reply_is_stripped (reply ext : string) :
  has_char backtick reply = false ->
  Coder.fallback_body reply = Py.strip reply
  /\ Fixer.fixed_body reply ext = Py.strip reply.
Proof.
  intros Hr.
  assert (Hs : has_char backtick (Py.strip reply) = false) by (by apply has_char_strip).
  split.
  - unfold Coder.fallback_body, Coder.extract_code_from_response.
    rewrite first_match_no_backtick by done.
    unfold Py.startswith. change "```" with Fence.fence.
    by rewrite prefix_fence_no_backtick.
  - unfold Fixer.fixed_body, Fixer.extract_code_from_response.
    rewrite first_match_no_backtick by done.
    unfold Fixer.clean_code_response. rewrite strip_idem.
    unfold Py.startswith. change "```" with Fence.fence.
    rewrite prefix_fence_no_backtick by done. apply strip_idem.
Qed.

End ExtractionFacts.

Lemma fenced_reply_gives_body_witness :
  Fixer.fixed_body ("```javascript" +:+ Py.nl +:+ "let done = [];" +:+ "```") "js"
  = "let done = [];".
Proof.
  refine (proj1 (proj2 (proj2
            (fenced_reply_gives_body "javascript" "let done = [];" "js" _ _ _)))).
  - vm_compute. repeat constructor.
  - reflexivity.
  - discriminate.
Defined.

Lemma plain_reply_is_stripped_witness :
  Coder.fallback_body ("  body { margin: 0; }" +:+ Py.nl) = "body { margin: 0; }".
Proof.
  refine (proj1 (plain_reply_is_stripped ("  body { margin: 0; }" +:+ Py.nl) "css" _)).
  reflexivity.
Defined.

(** ** Failure of every tier, and the issues read off a reply *)

Section LastFacts.
Context `{Collaborators}.

(** X23. When every tier fails (the tool-using tier raises an error that
    carries no [failed_generation] payload, and the direct generation raises
    as well), the step is recorded in [failed_files], the index still advances
    by one, and the tree holds only what the agent's own tool calls wrote
    before it raised. *)
Theorem coder_records_failed_step (w : World) (st : State) (tp : TaskPlan)
    (task : ImplementationTask) (ctx e e' : string) (ws : list (string * string)) :
  let cs := working_state tp st in
  task_plan st = Some tp ->
  0 <= current_step_idx cs ->
  implementation_steps (cs_task_plan cs) !! Z.to_nat (current_step_idx cs) = Some task ->
  get_project_context_summary (disk w) 5 300 = Reply ctx ->
  react_agent_invoke (llm_calls w) coder_system_prompt
    (coder_task_prompt (task_description task) (filepath task)
       (Coder.existing_content task w) ctx) = (ws, Raise e) ->
  Py.contains "failed_generation" e = false ->
  llm_invoke (S (llm_calls w))
    (coder_fallback_prompt (filepath task) (task_description task)) = Raise e' ->
  exists w' st' cs',
    Coder.coder_agent w st = (w', Returns st')
    /\ coder_state st' = Some cs'
    /\ failed_files cs' = (failed_files cs ++ [filepath task])%list
    /\ completed_files cs' = completed_files cs
    /\ current_step_idx cs' = current_step_idx cs + 1
    /\ disk w' = Coder.apply_writes ws (disk w).
Proof.
  intros cs Htp Hidx Hlook Hctx Hreact Hpayload Hllm.
  pose proof (lookup_lt_Some _ _ _ Hlook) as Hlt.
  unfold Coder.coder_agent. rewrite Htp. fold (working_state tp st). fold cs.
  destruct (Z.of_nat (length (implementation_steps (cs_task_plan cs)))
            <=? current_step_idx cs) eqn:E; [apply Z.leb_le in E; lia|].
  rewrite index_in_range, Hlook by lia.
  unfold Coder.code_step. rewrite Hctx.
  unfold Coder.generate. rewrite Hreact, Hpayload.
  unfold Coder.direct_generation. cbn [llm_calls set_disk tick]. rewrite Hllm.
  cbv zeta.
  destruct (_ <=? current_step_idx (Coder.advance (Coder.append_failed cs (filepath task))));
    (eexists _, _, _; split; [reflexivity|]; simpl; by split_all).
Qed.

Lemma issue_line_length (line : string) :
  Reviewer.issue_line line = true ->
  15 < Py.len (Py.strip line) < 300.
Proof.
  unfold Reviewer.issue_line.
  destruct (_ || _); [discriminate|].
  destruct (_ || _); [discriminate|].
  destruct (_ || _); [discriminate|].
  intros Hl. apply andb_true_iff in Hl as [Hl H300].
  apply andb_true_iff in Hl as [_ H15].
  apply Z.ltb_lt in H15, H300. lia.
Qed.

(** X24. At most five issue lines are read off a reply, and each of them,
    stripped, is longer than 15 and shorter than 300 characters. *)
Theorem extracted_issues_bounded (response_text : string) :
  (length (Reviewer.extract_issues_from_response response_text) <= 5)%nat
  /\ Forall (fun i => 15 < Py.len i < 300)
       (Reviewer.extract_issues_from_response response_text).
Proof.
  unfold Reviewer.extract_issues_from_response. split.
  - rewrite length_take. lia.
  - apply Forall_take, Forall_fmap, Forall_forall. intros line Hline.
    apply list_elem_of_In, filter_In in Hline as [_ Hl]. simpl.
    by apply issue_line_length.
Qed.

End LastFacts.

Lemma coder_records_failed_step_witness :
  exists w' st' cs',
    @Coder.coder_agent Script.plain Script.fresh_world
      (Script.with_task_plan Script.web_task_plan) = (w', Returns st')
    /\ coder_state st' = Some cs'
    /\ failed_files cs' = ["index.html"]
    /\ current_step_idx cs' = 1.
Proof.
  destruct (@coder_records_failed_step Script.plain Script.fresh_world
              (Script.with_task_plan Script.web_task_plan) Script.web_task_plan
              (Script.task "index.html" 1) "No files in project yet."
              "connection reset" "connection reset" [] eq_refl)
    as (w' & st' & cs' & Hrun & Hcs & Hfail & _ & Hidx & _).
  - vm_compute. discriminate.
  - reflexivity.
  - reflexivity.
  - reflexivity.
  - reflexivity.
  - reflexivity.
  - exists w', st', cs'. split_all; assumption.
Defined.
